(** * camerge: merging calendar feeds

    A shallow embedding of [src/camerge/__init__.py] (the current package)
    and of the identifier derivation of the older [camerge.py] script.

    Python [str] values are represented by their UTF-8 bytes ([string]), so
    [str.encode()] and [bytes.decode()] are the identity on the
    representation; slicing off the seven ASCII characters of a scheme and
    substring search coincide on code points and on bytes.

    The third-party pieces (the icalendar parser and serialisers, the file
    system and the network) are parameters of the development; [hashlib.md5]
    is implemented in full so that the derived identifiers evaluate. *)

From Stdlib Require Import ZArith String Ascii List Bool Lia.
From stdpp Require Import gmap strings list fin_maps.

Local Open Scope string_scope.
Local Open Scope Z_scope.
Local Open Scope list_scope.

(** ** Python string primitives *)

Module PyStr.

Definition upper_ascii (c : ascii) : ascii :=
  let n := nat_of_ascii c in
  if (Nat.leb 97 n && Nat.leb n 122)%bool then ascii_of_nat (n - 32) else c.

(** [str.upper()] on ASCII text, the only keys the program uses. *)
Fixpoint upper (s : string) : string :=
  match s with
  | EmptyString => EmptyString
  | String c s' => String (upper_ascii c) (upper s')
  end.

(** [s.startswith(p)] *)
Fixpoint startswith (p s : string) : bool :=
  match p, s with
  | EmptyString, _ => true
  | String a p', String b s' => if Ascii.eqb a b then startswith p' s' else false
  | String _ _, EmptyString => false
  end.

(** [sub in s] *)
Fixpoint str_in (sub s : string) : bool :=
  startswith sub s ||
  match s with
  | EmptyString => false
  | String _ s' => str_in sub s'
  end.

(** [s[n:]] *)
Fixpoint drop (n : nat) (s : string) : string :=
  match n, s with
  | O, _ => s
  | S n', String _ s' => drop n' s'
  | S _, EmptyString => EmptyString
  end.

(** [s.replace(old, new)] for a non-empty [old]: the non-overlapping
    occurrences are replaced from the left.  [skip] counts the characters
    of the occurrence just replaced that are still to be passed over. *)
Fixpoint replace_from (skip : nat) (old new s : string) : string :=
  match s with
  | EmptyString => EmptyString
  | String c s' =>
      match skip with
      | S k => replace_from k old new s'
      | O =>
          if startswith old s
          then new +:+ replace_from (String.length old - 1) old new s'
          else String c (replace_from O old new s')
      end
  end.

Definition replace (old new s : string) : string := replace_from O old new s.

(** truthiness of a [str] *)
Definition truthy (s : string) : bool :=
  match s with EmptyString => false | _ => true end.

Definition newline : string := String (ascii_of_nat 10) EmptyString.

End PyStr.

(** ** [hashlib.md5(...).hexdigest()] (RFC 1321) *)

Module MD5.

Definition mask32 : Z := 4294967295.
Definition w32 (x : Z) : Z := Z.land x mask32.
Definition add32 (x y : Z) : Z := w32 (x + y).
Definition not32 (x : Z) : Z := Z.lxor (w32 x) mask32.
Definition rotl32 (x c : Z) : Z :=
  w32 (Z.lor (Z.shiftl (w32 x) c) (Z.shiftr (w32 x) (32 - c))).

Definition K : list Z :=
  [ 0xd76aa478; 0xe8c7b756; 0x242070db; 0xc1bdceee;
    0xf57c0faf; 0x4787c62a; 0xa8304613; 0xfd469501;
    0x698098d8; 0x8b44f7af; 0xffff5bb1; 0x895cd7be;
    0x6b901122; 0xfd987193; 0xa679438e; 0x49b40821;
    0xf61e2562; 0xc040b340; 0x265e5a51; 0xe9b6c7aa;
    0xd62f105d; 0x02441453; 0xd8a1e681; 0xe7d3fbc8;
    0x21e1cde6; 0xc33707d6; 0xf4d50d87; 0x455a14ed;
    0xa9e3e905; 0xfcefa3f8; 0x676f02d9; 0x8d2a4c8a;
    0xfffa3942; 0x8771f681; 0x6d9d6122; 0xfde5380c;
    0xa4beea44; 0x4bdecfa9; 0xf6bb4b60; 0xbebfbc70;
    0x289b7ec6; 0xeaa127fa; 0xd4ef3085; 0x04881d05;
    0xd9d4d039; 0xe6db99e5; 0x1fa27cf8; 0xc4ac5665;
    0xf4292244; 0x432aff97; 0xab9423a7; 0xfc93a039;
    0x655b59c3; 0x8f0ccc92; 0xffeff47d; 0x85845dd1;
    0x6fa87e4f; 0xfe2ce6e0; 0xa3014314; 0x4e0811a1;
    0xf7537e82; 0xbd3af235; 0x2ad7d2bb; 0xeb86d391 ].

Definition shifts : list Z :=
  [ 7; 12; 17; 22; 7; 12; 17; 22; 7; 12; 17; 22; 7; 12; 17; 22;
    5;  9; 14; 20; 5;  9; 14; 20; 5;  9; 14; 20; 5;  9; 14; 20;
    4; 11; 16; 23; 4; 11; 16; 23; 4; 11; 16; 23; 4; 11; 16; 23;
    6; 10; 15; 21; 6; 10; 15; 21; 6; 10; 15; 21; 6; 10; 15; 21 ].

Record state := State { sa : Z; sb : Z; sc : Z; sd : Z }.

Definition init : state :=
  State 0x67452301 0xefcdab89 0x98badcfe 0x10325476.

Definition bytes_of (s : string) : list Z :=
  map (fun c => Z.of_nat (nat_of_ascii c)) (list_ascii_of_string s).

(** the message followed by 0x80, zeros up to 56 mod 64, and the bit
    length as a 64-bit little-endian integer *)
Definition le_bytes (n : nat) (x : Z) : list Z :=
  map (fun i => Z.land (Z.shiftr x (8 * Z.of_nat i)) 255) (seq 0 n).

Definition pad (msg : list Z) : list Z :=
  let len := Z.of_nat (length msg) in
  let zeros := Z.to_nat ((55 - len) mod 64) in
  msg ++ [128] ++ repeat 0 zeros ++ le_bytes 8 (Z.land (8 * len) (2 ^ 64 - 1)).

Fixpoint from_le (bs : list Z) : Z :=
  match bs with
  | [] => 0
  | b :: bs' => b + 256 * from_le bs'
  end.

(** the sixteen little-endian words of a 64-byte block *)
Definition words (block : list Z) : list Z :=
  map (fun i => from_le (firstn 4 (skipn (4 * i) block))) (seq 0 16).

Definition round (M : list Z) (st : state) (i : nat) : state :=
  let '(State a b c d) := st in
  let zi := Z.of_nat i in
  let '(f, g) :=
    if (i <? 16)%nat then
      (Z.lor (Z.land b c) (Z.land (not32 b) d), zi)
    else if (i <? 32)%nat then
      (Z.lor (Z.land d b) (Z.land (not32 d) c), (5 * zi + 1) mod 16)
    else if (i <? 48)%nat then
      (Z.lxor b (Z.lxor c d), (3 * zi + 5) mod 16)
    else
      (Z.lxor c (Z.lor b (not32 d)), (7 * zi) mod 16) in
  let f' := add32 (add32 (add32 f a) (nth i K 0)) (nth (Z.to_nat g) M 0) in
  State d (add32 b (rotl32 f' (nth i shifts 0))) b c.

Definition compress (st : state) (block : list Z) : state :=
  let r := fold_left (round (words block)) (seq 0 64) st in
  State (add32 (sa st) (sa r)) (add32 (sb st) (sb r))
        (add32 (sc st) (sc r)) (add32 (sd st) (sd r)).

Fixpoint blocks (n : nat) (bs : list Z) : list (list Z) :=
  match n with
  | O => []
  | S n' => firstn 64 bs :: blocks n' (skipn 64 bs)
  end.

Definition digest_state (s : string) : state :=
  let p := pad (bytes_of s) in
  fold_left compress (blocks (length p / 64) p) init.

Definition digest (s : string) : list Z :=
  let st := digest_state s in
  le_bytes 4 (sa st) ++ le_bytes 4 (sb st) ++ le_bytes 4 (sc st) ++ le_bytes 4 (sd st).

Definition hex_digit (n : Z) : ascii :=
  nth (Z.to_nat (n mod 16))
      (list_ascii_of_string "0123456789abcdef") "0"%char.

Definition hex_byte (b : Z) : list ascii :=
  [hex_digit (Z.shiftr b 4); hex_digit b].

Definition hexdigest (s : string) : string :=
  string_of_list_ascii (concat (map hex_byte (digest s))).

Definition is_hex (c : ascii) : bool :=
  existsb (Ascii.eqb c) (list_ascii_of_string "0123456789abcdef").

End MD5.

(** ** Exceptions *)

Inductive exn : Type :=
| AttributeError
| TypeError
| KeyError
| ValueError
| OSError.

Inductive result (A : Type) : Type :=
| Ok (a : A)
| Raise (e : exn).
Arguments Ok {A} a.
Arguments Raise {A} e.

#[global] Instance result_ret : MRet result := fun A a => Ok a.
#[global] Instance result_bind : MBind result := fun A B f m =>
  match m with
  | Ok a => f a
  | Raise e => Raise e
  end.

(** ** Dates *)

Record date : Type := Date { year : Z; month : Z; day : Z }.

(** [a < b] on [datetime.date]: the order of (year, month, day). *)
Definition date_lt (a b : date) : bool :=
  (year a <? year b)
  || ((year a =? year b)
      && ((month a <? month b)
          || ((month a =? month b) && (day a <? day b)))).

Record datetime : Type :=
  Datetime { dt_date : date; hour : Z; minute : Z; second : Z }.

(** the value of a [.dt] attribute, a [date] or a [datetime] as annotated
    in [__should_skip_event]; the durations, times and periods that the
    library can also put there are not represented *)
Inductive py_dt : Type :=
| DtDate (d : date)
| DtDatetime (t : datetime).

(** ** Property values

    What an event can hold under a key: [None] or a plain [str] (assigned
    by a program, as the projector does), or an object of one of
    icalendar's property types, which all carry [params]. *)

Abbreviation Parameters := (gmap string string).

Inductive prop : Type :=
| PyNone
| PyString (s : string)
| vText (s : string) (params : Parameters)
| vCalAddress (s : string) (params : Parameters)
| vDDDTypes (dt : py_dt) (params : Parameters)
| vOther (raw : string) (params : Parameters).

(** a key holds one property, or a list when the line is repeated *)
Inductive value : Type :=
| One (p : prop)
| Many (ps : list prop).

(** [hasattr(a, 'params')] and [a.params] *)
Definition params_of (a : prop) : option Parameters :=
  match a with
  | PyNone | PyString _ => None
  | vText _ ps | vCalAddress _ ps | vDDDTypes _ ps | vOther _ ps => Some ps
  end.

(** [v.encode()]: defined on [str] and its subclasses only *)
Definition encode (v : value) : result string :=
  match v with
  | One (PyString s) | One (vText s _) | One (vCalAddress s _) => Ok s
  | _ => Raise AttributeError
  end.

(** [v.dt] *)
Definition dt (v : value) : result py_dt :=
  match v with
  | One (vDDDTypes d _) => Ok d
  | _ => Raise AttributeError
  end.

(** ** Components: caseless dictionaries *)

Abbreviation Event := (gmap string value).

Definition has (key : string) (c : Event) : bool :=
  bool_decide (is_Some (c !! PyStr.upper key)).

Definition getitem (key : string) (c : Event) : result value :=
  match c !! PyStr.upper key with
  | Some v => Ok v
  | None => Raise KeyError
  end.

Definition setitem (key : string) (v : value) (c : Event) : Event :=
  <[PyStr.upper key := v]> c.

Definition as_list (v : value) : list prop :=
  match v with
  | One p => [p]
  | Many ps => ps
  end.

(** [Component.add] for a value that already has a property type: a key
    that is present is turned into a list and extended.  (Adding a list to
    a single value nests it in Python; [__copy_event] adds each key once
    and never gets there.)  A value of another kind is first converted by
    the library to the property type of the key, which can fail; that
    conversion is not modelled, and the properties of the copy are stated
    for typed values. *)
Definition add (key : string) (v : value) (c : Event) : Event :=
  match c !! PyStr.upper key with
  | None => setitem key v c
  | Some (Many old) => setitem key (Many (old ++ as_list v)) c
  | Some (One old) =>
      match v with
      | One p => setitem key (Many [old; p]) c
      | Many ps => setitem key (Many (old :: ps)) c
      end
  end.

Record Timezone : Type :=
  { tz_properties : Event; tz_subcomponents : list (string * Event) }.

Inductive component : Type :=
| CTimezone (tz : Timezone)
| CEvent (e : Event)
| COther (name : string).

Record Calendar : Type :=
  { prodid : string; version : string; subcomponents : list component }.

(** [calendar.add_component(c)] *)
Definition add_component (c : component) (cal : Calendar) : Calendar :=
  {| prodid := prodid cal; version := version cal;
     subcomponents := subcomponents cal ++ [c] |}.

(** ** Sample data

    A small environment and calendar on which the definitions evaluate. *)

Module Sample.

Definition prop_text (p : prop) : string :=
  match p with
  | PyString s | vText s _ | vCalAddress s _ | vOther s _ => s
  | PyNone | vDDDTypes _ _ => ""
  end.

Definition event_text (e : Event) : string := "BEGIN:VEVENT END:VEVENT".

Definition calendar_text (cal : Calendar) : string :=
  "BEGIN:VCALENDAR PRODID:" +:+ prodid cal +:+ " END:VCALENDAR".

Definition responds (s : string) : Parameters := {[ "PARTSTAT" := s ]}.

Definition owner : prop :=
  vCalAddress "mailto:confirmed@example.com" (responds "ACCEPTED").
Definition guest : prop :=
  vCalAddress "mailto:guest@example.org" (responds "DECLINED").

Definition moment (y m d h : Z) : value :=
  One (vDDDTypes (DtDatetime (Datetime (Date y m d) h 0 0)) ∅).

Definition meeting : Event :=
  <["UID" := One (vText "meeting-1" ∅)]>
  (<["SUMMARY" := One (vText "Dentist" ∅)]>
  (<["DTSTART" := moment 2020 3 1 9]>
  (<["DTEND" := moment 2020 3 1 10]>
  (<["STATUS" := One (vText "TENTATIVE" ∅)]>
  (<["ATTENDEE" := Many [owner; guest]]> ∅))))).

Definition weekly : Event :=
  <["RRULE" := One (vOther "FREQ=WEEKLY" ∅)]> meeting.

Definition utc : Timezone :=
  {| tz_properties := {[ "TZID" := One (vText "UTC" ∅) ]};
     tz_subcomponents := [] |}.

Definition from_ical (text : string) : result (list component) :=
  if PyStr.startswith "BEGIN:VCALENDAR" text
  then Ok [CTimezone utc; CEvent meeting]
  else Raise ValueError.

Definition read_file (path : string) : result string :=
  if String.eqb path "/srv/home.ics" then Ok "BEGIN:VCALENDAR END:VCALENDAR"
  else Raise OSError.

Definition urlopen (url : string) : result string := Raise OSError.

(** an event whose DTEND line is repeated: the key holds a list *)
Definition doubled : Event :=
  <["DTEND" := Many [vDDDTypes (DtDate (Date 2020 3 1)) ∅;
                     vDDDTypes (DtDate (Date 2020 3 2)) ∅]]> meeting.

(** an event whose UID line is repeated *)
Definition two_uids : Event :=
  <["UID" := Many [vText "meeting-1" ∅; vText "meeting-2" ∅]]> meeting.

(** an event with neither summary nor attendees *)
Definition note : Event :=
  <["UID" := One (vText "note-7" ∅)]>
  (<["DTSTART" := One (vDDDTypes (DtDate (Date 2022 5 9)) ∅)]> ∅).

(** a parser with a few more canned calendars *)
Definition from_ical_more (text : string) : result (list component) :=
  if String.eqb text "TODO" then Ok [COther "VTODO"; CEvent note; CTimezone utc]
  else if String.eqb text "DOUBLED" then Ok [CTimezone utc; CEvent doubled]
  else if String.eqb text "TWO-UIDS" then Ok [CEvent note; CEvent two_uids]
  else from_ical text.

(** a network that serves one address *)
Definition urlopen_one (url : string) : result string :=
  if String.eqb url "http://example.org/http.ics" then Ok "TODO"
  else Raise OSError.

(** an attendee who has not answered yet, and an event that invites them *)
Definition invitee : prop :=
  vCalAddress "mailto:maybe@example.com" (responds "NEEDS-ACTION").

Definition invited : Event :=
  <["UID" := One (vText "invited-3" ∅)]>
  (<["STATUS" := One (vText "CONFIRMED" ∅)]>
  (<["ATTENDEE" := One invitee]> ∅)).

End Sample.

(** ** The program *)

Section Camerge.

(** *** The environment: icalendar, the file system, the network *)

(** [p.to_ical().decode()] for a property object *)
Variable prop_to_ical : prop -> string.
(** [component.to_ical().decode()] for an event *)
Variable event_to_ical : Event -> string.
(** [Calendar().from_ical(text).subcomponents]; malformed text raises *)
Variable from_ical : string -> result (list component).
(** [calendar.to_ical().decode()] *)
Variable calendar_to_ical : Calendar -> string.
(** [open(path, 'r').read()] *)
Variable read_file : string -> result string.
(** [urlopen(Request(url)).read().decode()] *)
Variable urlopen : string -> result string.
(** [str(uuid.uuid4())], drawn afresh at each call of the older script *)
Variable uuid4 : string.

Set Default Proof Using "Type".

(** [__copy_event] *)
Definition copy_event (event : Event) (keys : list string) : Event :=
  fold_left
    (fun copy key =>
       match event !! PyStr.upper key with
       | Some v => add key v copy
       | None => copy
       end)
    keys ∅.

(** the text that is hashed: the uid when there is one, else the whole
    serialised event *)
Definition uid_source (component : Event) : result string :=
  if has "uid" component
  then v ← getitem "uid" component; encode v
  else Ok (event_to_ical component).

(** [__generate_uid] *)
Definition generate_uid (component : Event) (domain : string) : result string :=
  base ← uid_source component;
  Ok (MD5.hexdigest base +:+ "@" +:+ domain).

(** [obfuscate_uid] of the older [camerge.py] *)
Definition obfuscate_uid (maybe_uid : option string) (domain : string) : string :=
  let base :=
    match maybe_uid with
    | Some u => if PyStr.truthy u then u else uuid4
    | None => uuid4
    end in
  MD5.hexdigest base +:+ "@" +:+ domain.

(** the calendar date of a [.dt] value: [datetime.date()] drops the time *)
Definition date_of (d : py_dt) : date :=
  match d with
  | DtDatetime t => dt_date t
  | DtDate d => d
  end.

(** [__should_skip_event] *)
Definition should_skip_event
    (component : Event) (skip_events_before : option date) : result bool :=
  match skip_events_before with
  | Some cutoff =>
      if (has "dtend" component || has "dtstart" component)
         && negb (has "rrule" component)
      then
        v ← (if has "dtend" component
             then getitem "dtend" component
             else getitem "dtstart" component);
        event_end_date ← dt v;
        if date_lt (date_of event_end_date) cutoff then Ok true else Ok false
      else Ok false
  | None => Ok false
  end.

(** [a.to_ical().decode().replace('\n', '')]: the serialised attendee,
    line breaks removed *)
Definition raw_ical (a : prop) : string :=
  PyStr.replace PyStr.newline "" (prop_to_ical a).

(** [email in a.to_ical().decode().replace('\n', '')] *)
Definition mentions (a : prop) (email : string) : bool :=
  PyStr.str_in email (raw_ical a).

(** the filter of the comprehension in [__determine_status] *)
Definition is_known (known_emails : list string) (a : prop) : bool :=
  match params_of a with
  | Some _ => existsb (mentions a) known_emails
  | None => false
  end.

(** [a.params.get('partstat')] *)
Definition partstat (a : prop) : option string :=
  ps ← params_of a; ps !! PyStr.upper "partstat".

Definition py_str (s : string) : value := One (PyString s).

(** [__determine_status] *)
Definition determine_status (component : Event) (known_emails : list string) : value :=
  let stored :=
    match component !! PyStr.upper "status" with
    | Some v => v
    | None => py_str "CONFIRMED"
    end in
  match component !! PyStr.upper "attendee" with
  | Some att =>
      if (0 <? length known_emails)%nat then
        let attendees := as_list att in
        let partstats := map partstat (List.filter (is_known known_emails) attendees) in
        if bool_decide (Some "ACCEPTED" ∈ partstats) then py_str "CONFIRMED"
        else if bool_decide (Some "DECLINED" ∈ partstats) then py_str "CANCELLED"
        else if bool_decide (Some "TENTATIVE" ∈ partstats)
                || bool_decide (Some "NEEDS-ACTION" ∈ partstats)
        then py_str "TENTATIVE"
        else stored
      else stored
  | None => stored
  end.

Definition copied_keys : list string :=
  [ "dtstart"; "dtend"; "dtstamp"; "rrule"; "status"; "summary";
    "transp"; "sequence"; "recurrence-id" ].

(** the body of the [Event] branch of [__process_calendar_data], after the
    cutoff test: copy, new uid, placeholder, status, mapper *)
Definition project_event
    (component : Event) (calendar_domain : string) (known_emails : list string)
    (busy_place_holder : option string)
    (event_mapper : option (Event -> Event -> result Event)) : result Event :=
  let event := copy_event component copied_keys in
  uid ← generate_uid component calendar_domain;
  let event := setitem "uid" (py_str uid) event in
  let event :=
    match busy_place_holder with
    | Some p => if PyStr.truthy p then setitem "summary" (py_str p) event else event
    | None => event
    end in
  let event := setitem "status" (determine_status component known_emails) event in
  match event_mapper with
  | Some f => f event component
  | None => Ok event
  end.

(** the loop of [__process_calendar_data]; [components] is the list built
    so far *)
Fixpoint process_components
    (loaded : list component) (calendar_domain : string)
    (known_emails : list string) (skip_events_before : option date)
    (busy_place_holder : option string)
    (event_mapper : option (Event -> Event -> result Event))
    (components : list component) : result (list component) :=
  match loaded with
  | [] => Ok components
  | CTimezone tz :: rest =>
      process_components rest calendar_domain known_emails skip_events_before
        busy_place_holder event_mapper (components ++ [CTimezone tz])
  | CEvent e :: rest =>
      skip ← should_skip_event e skip_events_before;
      if (skip : bool) then
        process_components rest calendar_domain known_emails skip_events_before
          busy_place_holder event_mapper components
      else
        event ← project_event e calendar_domain known_emails busy_place_holder
                  event_mapper;
        process_components rest calendar_domain known_emails skip_events_before
          busy_place_holder event_mapper (components ++ [CEvent event])
  | COther _ :: rest =>
      process_components rest calendar_domain known_emails skip_events_before
        busy_place_holder event_mapper components
  end.

(** [__process_calendar_data] *)
Definition process_calendar_data
    (calendar_data calendar_domain : string) (known_emails : list string)
    (skip_events_before : option date) (busy_place_holder : option string)
    (event_mapper : option (Event -> Event -> result Event))
    : result (list component) :=
  loaded ← from_ical calendar_data;
  process_components loaded calendar_domain known_emails skip_events_before
    busy_place_holder event_mapper [].

(** the body of the [try] block of [__get_calendar_data]; falling out of
    the [if] chain yields [None] *)
Definition download (calendar_data : string) : result (option string) :=
  if PyStr.startswith "file://" calendar_data then
    text ← read_file (PyStr.drop 7 calendar_data); Ok (Some text)
  else if PyStr.startswith "http" calendar_data
          || PyStr.startswith "webcal://" calendar_data then
    let url :=
      if PyStr.startswith "webcal://" calendar_data
      then PyStr.replace "webcal" "http" calendar_data
      else calendar_data in
    text ← urlopen url; Ok (Some text)
  else if PyStr.startswith "data://" calendar_data then
    Ok (Some (PyStr.drop 7 calendar_data))
  else Ok None.

(** [__get_calendar_data]: every exception is logged and becomes [None] *)
Definition get_calendar_data (calendar_data : string) : option string :=
  match download calendar_data with
  | Ok r => r
  | Raise _ => None
  end.

(** [not calendar_data] on an [Optional[str]] *)
Definition no_data (fetched : option string) : bool :=
  match fetched with
  | Some text => negb (PyStr.truthy text)
  | None => true
  end.

(** [known_emails if known_emails else []] *)
Definition known_or_empty (known_emails : option (list string)) : list string :=
  match known_emails with
  | Some (e :: es) => e :: es
  | _ => []
  end.

(** [for component in components: calendar.add_component(component)] *)
Definition add_components (components : list component) (calendar : Calendar) : Calendar :=
  fold_left (fun cal c => add_component c cal) components calendar.

(** the loop of [merge_calendars] over the sources *)
Fixpoint merge_sources
    (sources : list (string * bool)) (known_emails : option (list string))
    (busy_placeholder calendar_domain : string)
    (skip_events_before : option date) (calendar : Calendar) : result Calendar :=
  match sources with
  | [] => Ok calendar
  | (url, anonymize) :: rest =>
      let fetched := get_calendar_data url in
      if no_data fetched then
        merge_sources rest known_emails busy_placeholder calendar_domain
          skip_events_before calendar
      else
        components ←
          process_calendar_data (default "" fetched) calendar_domain
            (known_or_empty known_emails) skip_events_before
            (if (anonymize : bool) then Some busy_placeholder else None)
            None;
        merge_sources rest known_emails busy_placeholder calendar_domain
          skip_events_before (add_components components calendar)
  end.

(** the calendar object [merge_calendars] builds, before serialisation *)
Definition merged_calendar
    (sources : list (string * bool)) (known_emails : option (list string))
    (calendar_name busy_placeholder calendar_domain : string)
    (skip_events_before : option date) : result Calendar :=
  merge_sources sources known_emails busy_placeholder calendar_domain
    skip_events_before
    {| prodid := calendar_name; version := "2.0"; subcomponents := [] |}.

(** [merge_calendars] *)
Definition merge_calendars
    (sources : list (string * bool)) (known_emails : option (list string))
    (calendar_name busy_placeholder calendar_domain : string)
    (skip_events_before : option date) : result string :=
  calendar ← merged_calendar sources known_emails calendar_name busy_placeholder
               calendar_domain skip_events_before;
  Ok (calendar_to_ical calendar).

(** *** Notions used to state the properties *)

(** [sub] occurs in [s] *)
Definition substring (sub s : string) : Prop :=
  ∃ pre post, s = pre +:+ sub +:+ post.

(** [a] strictly before [b] in the calendar *)
Definition earlier (a b : date) : Prop :=
  year a < year b
  ∨ (year a = year b
     ∧ (month a < month b ∨ (month a = month b ∧ day a < day b))).

(** an attendee of the owner: it has parameters and its serialised form
    contains one of the known addresses *)
Definition known (known_emails : list string) (a : prop) : Prop :=
  is_Some (params_of a)
  ∧ ∃ email, email ∈ known_emails ∧ substring email (raw_ical a).

(** some known attendee among [att] has participation status [s] *)
Definition answered (known_emails : list string) (att : value) (s : string) : Prop :=
  ∃ a, a ∈ as_list att ∧ known known_emails a ∧ partstat a = Some s.

(** the stored status, or CONFIRMED *)
Definition stored_status (component : Event) : value :=
  default (py_str "CONFIRMED") (component !! "STATUS").

(** what one source contributes to the merged calendar *)
Definition source_components
    (known_emails : option (list string)) (busy_placeholder calendar_domain : string)
    (skip_events_before : option date) (source : string * bool)
    : result (list component) :=
  match get_calendar_data source.1 with
  | Some text =>
      if PyStr.truthy text then
        process_calendar_data text calendar_domain (known_or_empty known_emails)
          skip_events_before (if source.2 then Some busy_placeholder else None) None
      else Ok []
  | None => Ok []
  end.

Definition is_timezone (c : component) : bool :=
  match c with CTimezone _ => true | _ => false end.

(** the keys a projected event can hold *)
Definition output_keys : list string :=
  "UID" :: map PyStr.upper copied_keys.

(** the summary the projector leaves in the new event *)
Definition projected_summary (component : Event) (busy_place_holder : option string)
    : option value :=
  match busy_place_holder with
  | Some p => if PyStr.truthy p then Some (py_str p) else component !! "SUMMARY"
  | None => component !! "SUMMARY"
  end.

(** the sources with every anonymize flag cleared *)
Definition plain (sources : list (string * bool)) : list (string * bool) :=
  map (λ source, (source.1, false)) sources.

(** *** Further notions *)

(** [event.get(key, None)] *)
Definition get (key : string) (c : Event) : option value :=
  c !! PyStr.upper key.

(** the keys the older script copies before it calls [obfuscate_uid] on
    the copy *)
Definition legacy_copied_keys : list string :=
  [ "dtstart"; "dtend"; "dtstamp"; "rrule"; "status"; "summary" ].

(** the events among some components, in order *)
Definition events_of (components : list component) : list Event :=
  flat_map (λ c, match c with CEvent e => [e] | _ => [] end) components.

(** the cutoff test lets the event through *)
Definition passes (skip_events_before : option date) (e : Event) : bool :=
  match should_skip_event e skip_events_before with
  | Ok false => true
  | _ => false
  end.

Definition is_other (c : component) : bool :=
  match c with COther _ => true | _ => false end.

(** [a] is [b] or strictly before it *)
Definition not_after (a b : date) : Prop := a = b ∨ earlier a b.

(** the parameters an attendee object carries, read off its shape *)
Definition carries (a : prop) (ps : Parameters) : Prop :=
  match a with
  | vText _ ps' | vCalAddress _ ps' | vDDDTypes _ ps' | vOther _ ps' => ps' = ps
  | PyNone | PyString _ => False
  end.

(** some attendee of [att] (the value itself, or an element when it is a
    list) carries parameters with PARTSTAT [s], and its decoded [to_ical()]
    text, line breaks removed, contains one of the known addresses *)
Definition responded (known_emails : list string) (att : value) (s : string) : Prop :=
  ∃ a ps email,
    (att = One a ∨ ∃ attendees, att = Many attendees ∧ a ∈ attendees)
    ∧ carries a ps
    ∧ ps !! "PARTSTAT" = Some s
    ∧ email ∈ known_emails
    ∧ substring email (PyStr.replace PyStr.newline "" (prop_to_ical a)).

(** an object of one of icalendar's property types, as the parser and
    [Component.add] leave them *)
Definition typed_prop (p : prop) : bool :=
  match p with
  | PyNone | PyString _ => false
  | vText _ _ | vCalAddress _ _ | vDDDTypes _ _ | vOther _ _ => true
  end.

Definition typed (v : value) : bool :=
  match v with
  | One p => typed_prop p
  | Many ps => forallb typed_prop ps
  end.

(** every value the event holds is typed *)
Definition all_typed (e : Event) : Prop :=
  map_Forall (λ _ v, typed v = true) e.

Definition typed_component (c : component) : Prop :=
  match c with
  | CEvent e => all_typed e
  | _ => True
  end.

(** the parser puts only typed values into the events it yields *)
Definition parser_typed : Prop :=
  ∀ text loaded, from_ical text = Ok loaded → Forall typed_component loaded.

(** ** The digest on known inputs *)

Example md5_empty : MD5.hexdigest "" = "d41d8cd98f00b204e9800998ecf8427e".
Proof. vm_compute. reflexivity. Qed.

Example md5_abc : MD5.hexdigest "abc" = "900150983cd24fb0d6963f7d28e17f72".
Proof. vm_compute. reflexivity. Qed.

Example md5_fox :
  MD5.hexdigest "The quick brown fox jumps over the lazy dog"
  = "9e107d9d372bb6826bd81d3542a419d6".
Proof. vm_compute. reflexivity. Qed.

Example md5_two_blocks :
  MD5.hexdigest "aaaaaaaaaaaaaaaaaaaaaaaaaaaaaaaaaaaaaaaaaaaaaaaaaaaaaaaa"
  = "3b0c8ac703f828b04c6c197006d17218".
Proof. vm_compute. reflexivity. Qed.

Example replace_every_occurrence :
  PyStr.replace "webcal" "http" "webcal://host/webcal.ics" = "http://host/http.ics".
Proof. reflexivity. Qed.

(** ** Facts about the string primitives *)

(** Forget the parts of the environment a statement does not mention. *)
Ltac forget_env :=
  try clear uuid4; try clear urlopen; try clear read_file;
  try clear calendar_to_ical; try clear from_ical;
  try clear event_to_ical; try clear prop_to_ical.

Lemma append_cons c s t : String c s +:+ t = String c (s +:+ t).
Proof. reflexivity. Qed.

Lemma startswith_spec p s :
  PyStr.startswith p s = true ↔ ∃ t, s = p +:+ t.
Proof.
  revert s. induction p as [|a p IH]; intros s; simpl.
  - split; [intros _; by exists s | done].
  - destruct s as [|b s].
    + split; [done | intros [t Ht]; discriminate].
    + destruct (Ascii.eqb_spec a b) as [->|Hne].
      * rewrite IH. split; intros [t Ht]; exists t;
          rewrite append_cons in *; congruence.
      * split; [done | intros [t Ht]; rewrite append_cons in Ht; congruence].
Qed.

Lemma str_in_spec sub s :
  PyStr.str_in sub s = true ↔ substring sub s.
Proof.
  unfold substring. induction s as [|c s IH].
  - simpl. rewrite orb_false_r, startswith_spec. split.
    + intros [t Ht]. by exists "", t.
    + intros (pre & post & H). destruct pre; [by exists post | discriminate].
  - change (PyStr.str_in sub (String c s))
      with (PyStr.startswith sub (String c s) || PyStr.str_in sub s).
    rewrite orb_true_iff, startswith_spec, IH. split.
    + intros [[t Ht] | (pre & post & H)].
      * by exists "", t.
      * exists (String c pre), post. rewrite append_cons. by rewrite H.
    + intros (pre & post & H). destruct pre as [|c' pre].
      * left. by exists post.
      * right. exists pre, post. rewrite append_cons in H. congruence.
Qed.

Lemma replace_newline_absent s :
  PyStr.str_in PyStr.newline s = false →
  PyStr.replace PyStr.newline "" s = s.
Proof.
  unfold PyStr.replace. induction s as [|c s IH]; [done |].
  change (PyStr.str_in PyStr.newline (String c s))
    with (PyStr.startswith PyStr.newline (String c s) || PyStr.str_in PyStr.newline s).
  rewrite orb_false_iff. intros [Hhead Htail].
  cbn [PyStr.replace_from]. rewrite Hhead. f_equal. by apply IH.
Qed.

(** ** The digest is 32 lower-case hexadecimal characters *)

Lemma hex_digit_is_hex n : MD5.is_hex (MD5.hex_digit n) = true.
Proof.
  unfold MD5.hex_digit.
  assert (0 ≤ n mod 16 < 16) as Hr by (apply Z.mod_pos_bound; lia).
  assert (∃ k, (k < 16)%nat ∧ Z.to_nat (n mod 16) = k) as (k & Hk & ->)
    by (eexists; split; [|reflexivity]; lia).
  do 16 (destruct k as [|k]; [reflexivity |]). lia.
Qed.

Lemma hexdigest_shape s :
  String.length (MD5.hexdigest s) = 32%nat
  ∧ Forall (λ c, MD5.is_hex c = true) (list_ascii_of_string (MD5.hexdigest s)).
Proof.
  unfold MD5.hexdigest, MD5.digest.
  generalize (MD5.digest_state s). intros st.
  unfold MD5.le_bytes. cbn [seq map app concat MD5.hex_byte].
  split; [reflexivity |].
  rewrite list_ascii_of_string_of_list_ascii.
  repeat (apply Forall_cons; split; [apply hex_digit_is_hex |]).
  apply Forall_nil_2.
Qed.

(** ** Dates *)

Lemma date_lt_spec a b : date_lt a b = true ↔ earlier a b.
Proof.
  forget_env.
  unfold date_lt, earlier.
  rewrite !orb_true_iff, !andb_true_iff, !orb_true_iff, !andb_true_iff,
    !Z.ltb_lt, !Z.eqb_eq.
  tauto.
Qed.

Lemma earlier_irrefl a : ¬ earlier a a.
Proof. unfold earlier. lia. Qed.

Lemma earlier_trans a b c : earlier a b → earlier b c → earlier a c.
Proof. unfold earlier. lia. Qed.

(** ** Caseless dictionaries *)

Ltac upper_keys :=
  repeat match goal with
  | |- context [PyStr.upper ?s] =>
      let k := eval vm_compute in (PyStr.upper s) in
      change (PyStr.upper s) with k
  | H : context [PyStr.upper ?s] |- _ =>
      let k := eval vm_compute in (PyStr.upper s) in
      change (PyStr.upper s) with k in H
  end.

Lemma has_true key (c : Event) :
  has key c = true ↔ is_Some (c !! PyStr.upper key).
Proof. unfold has. apply bool_decide_eq_true. Qed.

Lemma has_false key (c : Event) :
  has key c = false ↔ c !! PyStr.upper key = None.
Proof.
  unfold has. rewrite bool_decide_eq_false, <- eq_None_not_Some. done.
Qed.

Lemma has_lookup key (c : Event) :
  has key c = match c !! PyStr.upper key with Some _ => true | None => false end.
Proof.
  destruct (c !! PyStr.upper key) eqn:E.
  - apply has_true. by rewrite E.
  - by apply has_false.
Qed.

Lemma add_fresh key v (c : Event) :
  c !! PyStr.upper key = None → add key v c = <[PyStr.upper key := v]> c.
Proof. intros H. unfold add. by rewrite H. Qed.

Lemma copy_event_from (event : Event) keys (acc : Event) k :
  NoDup (map PyStr.upper keys) →
  (∀ key, key ∈ keys → acc !! PyStr.upper key = None) →
  fold_left
    (fun copy key =>
       match event !! PyStr.upper key with
       | Some v => add key v copy
       | None => copy
       end) keys acc !! k
  = if decide (k ∈ map PyStr.upper keys) then event !! k else acc !! k.
Proof.
  revert acc. induction keys as [|key rest IH]; intros acc Hnd Hacc.
  - cbn [map fold_left]. rewrite decide_False; [done | apply not_elem_of_nil].
  - cbn [map fold_left] in *. apply NoDup_cons in Hnd as [Hnotin Hnd].
    rewrite IH; [| done |].
    + assert (acc !! PyStr.upper key = None) as Hkey by (apply Hacc; left).
      destruct (decide (k = PyStr.upper key)) as [->|Hne].
      * rewrite (decide_False (P := _ ∈ map _ rest)) by done.
        rewrite (decide_True (P := _ ∈ _ :: _)) by left.
        destruct (event !! PyStr.upper key) eqn:E; [|done].
        rewrite add_fresh by done. by rewrite lookup_insert_eq.
      * destruct (decide (k ∈ map PyStr.upper rest)) as [Hin|Hout].
        -- by rewrite decide_True by (by right).
        -- rewrite decide_False by (intros [?|?]%elem_of_cons; done).
           destruct (event !! PyStr.upper key); [|done].
           rewrite add_fresh by done. by rewrite lookup_insert_ne.
    + intros key' Hin.
      assert (PyStr.upper key' ≠ PyStr.upper key) as Hne.
      { intros Heq. apply Hnotin. rewrite <- Heq.
        apply list_elem_of_In, in_map, list_elem_of_In, Hin. }
      destruct (event !! PyStr.upper key).
      * rewrite add_fresh by (apply Hacc; left).
        rewrite lookup_insert_ne by done. apply Hacc. by right.
      * apply Hacc. by right.
Qed.

(** [__copy_event] copies exactly the listed keys that are present, each
    value as it is. *)
Lemma copy_event_lookup (event : Event) keys k :
  NoDup (map PyStr.upper keys) →
  copy_event event keys !! k
  = if decide (k ∈ map PyStr.upper keys) then event !! k else None.
Proof.
  intros Hnd. unfold copy_event. rewrite copy_event_from; [| done |].
  - by rewrite lookup_empty.
  - intros. apply lookup_empty.
Qed.

(** ** Status resolution *)

Lemma is_known_spec known_emails a :
  is_known known_emails a = true ↔ known known_emails a.
Proof.
  unfold is_known, known, mentions. destruct (params_of a) as [ps|].
  - rewrite existsb_exists. split.
    + intros (email & Hin & Hsub). split; [by eexists |].
      exists email. by rewrite list_elem_of_In, <- str_in_spec.
    + intros (_ & email & Hin & Hsub).
      exists email. by rewrite <- list_elem_of_In, str_in_spec.
  - split; [done | intros [[? ?] _]; done].
Qed.

Lemma partstats_spec known_emails att s :
  Some s ∈ map partstat (List.filter (is_known known_emails) (as_list att))
  ↔ answered known_emails att s.
Proof.
  unfold answered. rewrite list_elem_of_In, in_map_iff. split.
  - intros (a & Hs & Hin). apply filter_In in Hin as [Hin Hk].
    exists a. by rewrite list_elem_of_In, <- is_known_spec.
  - intros (a & Hin & Hk & Hs). exists a. split; [done |].
    apply filter_In. by rewrite <- list_elem_of_In, is_known_spec.
Qed.

(** When every serialised attendee is free of line breaks, the text that is
    searched is the serialised form itself. *)
Lemma raw_ical_plain a :
  PyStr.str_in PyStr.newline (prop_to_ical a) = false →
  raw_ical a = prop_to_ical a.
Proof. apply replace_newline_absent. Qed.

Lemma carries_spec a ps : carries a ps ↔ params_of a = Some ps.
Proof. destruct a; cbn; split; intros H; try done; congruence. Qed.

Lemma partstat_spec a s :
  partstat a = Some s ↔ ∃ ps, carries a ps ∧ ps !! "PARTSTAT" = Some s.
Proof.
  unfold partstat. upper_keys. setoid_rewrite carries_spec.
  destruct (params_of a) as [ps|]; cbn.
  - split; [by exists ps | by intros (? & [= <-] & ?)].
  - split; [done | by intros (? & ? & ?)].
Qed.

Lemma as_list_spec att a :
  a ∈ as_list att ↔ att = One a ∨ ∃ attendees, att = Many attendees ∧ a ∈ attendees.
Proof.
  destruct att as [p | ps]; cbn.
  - rewrite list_elem_of_singleton. split.
    + intros ->. by left.
    + intros [[= ->] | (? & [=] & _)]. done.
  - split.
    + intros H. right. by exists ps.
    + intros [[=] | (? & [= <-] & H)]. done.
Qed.

Lemma responded_spec known_emails att s :
  responded known_emails att s ↔ answered known_emails att s.
Proof.
  unfold responded, answered, known, raw_ical. split.
  - intros (a & ps & email & Hin & Hps & Hs & Hemail & Hsub).
    exists a. split; [by apply as_list_spec |]. split.
    + split; [apply carries_spec in Hps; by rewrite Hps | by exists email].
    + apply partstat_spec. by exists ps.
  - intros (a & Hin & (_ & email & Hemail & Hsub) & (ps & Hps & Hs)%partstat_spec).
    exists a, ps, email. by rewrite <- as_list_spec.
Qed.

(** C1. For an event that has an attendee field and a non-empty list of
    known addresses, [__determine_status] collects the PARTSTAT parameter
    of the attendees that carry parameters and whose serialised form (the
    decoded [to_ical()] text, line breaks removed) contains a known
    address, and answers in this order: CONFIRMED if ACCEPTED is among
    them; else CANCELLED if DECLINED is; else TENTATIVE if TENTATIVE or
    NEEDS-ACTION is; else the stored status, or CONFIRMED when there is
    none. *)
Theorem determine_status_priority (component : Event) known_emails att :
  component !! "ATTENDEE" = Some att →
  known_emails ≠ [] →
  let said := responded known_emails att in
  let status := determine_status component known_emails in
  (said "ACCEPTED" → status = py_str "CONFIRMED")
  ∧ (¬ said "ACCEPTED" → said "DECLINED" → status = py_str "CANCELLED")
  ∧ (¬ said "ACCEPTED" → ¬ said "DECLINED" →
     said "TENTATIVE" ∨ said "NEEDS-ACTION" → status = py_str "TENTATIVE")
  ∧ (¬ said "ACCEPTED" → ¬ said "DECLINED" →
     ¬ said "TENTATIVE" → ¬ said "NEEDS-ACTION" →
     status = stored_status component).
Proof.
  forget_env.
  intros Hatt Hne said status. subst said status.
  unfold determine_status, stored_status. upper_keys. rewrite Hatt.
  assert ((0 <? length known_emails)%nat = true) as ->.
  { apply Nat.ltb_lt. destruct known_emails; [done | simpl; lia]. }
  cbv zeta. rewrite !responded_spec.
  repeat case_bool_decide; rewrite ?partstats_spec in *;
    repeat split; intros; cbn [orb]; try done; tauto.
Qed.

(** ** Derived identifiers *)

(** C2. The derived identifier is a function of the original identifier
    (of the serialised event when there is none) and of the domain alone:
    it is the MD5 hex digest of that text, an at sign, and the domain.  The
    digest is 32 hexadecimal characters; two events with the same
    identifier text get the same derived identifier. *)
Theorem generate_uid_stable (component : Event) (domain : string) :
  (∀ v u, component !! "UID" = Some v → encode v = Ok u →
     generate_uid component domain = Ok (MD5.hexdigest u +:+ "@" +:+ domain))
  ∧ (component !! "UID" = None →
     generate_uid component domain
     = Ok (MD5.hexdigest (event_to_ical component) +:+ "@" +:+ domain))
  ∧ (∀ other base, uid_source component = Ok base → uid_source other = Ok base →
     generate_uid other domain = generate_uid component domain)
  ∧ (∀ base, String.length (MD5.hexdigest base) = 32%nat
     ∧ Forall (λ c, MD5.is_hex c = true) (list_ascii_of_string (MD5.hexdigest base))).
Proof.
  unfold generate_uid, uid_source, getitem. rewrite has_lookup. upper_keys.
  repeat split.
  - intros v u -> Hu. cbn. by rewrite Hu.
  - by intros ->.
  - intros other base Hc Ho. unfold generate_uid, uid_source, getitem in *.
    rewrite has_lookup in *. upper_keys. by rewrite Hc, Ho.
  - apply hexdigest_shape.
Qed.

(** The older script hashes the uid when it is given and non-empty, so the
    random draw plays no part then. *)
Lemma obfuscate_uid_given u domain :
  PyStr.truthy u = true →
  obfuscate_uid (Some u) domain = MD5.hexdigest u +:+ "@" +:+ domain.
Proof. intros H. unfold obfuscate_uid. by rewrite H. Qed.

(** Without a uid the older script hashes the random draw. *)
Lemma obfuscate_uid_missing domain :
  obfuscate_uid None domain = MD5.hexdigest uuid4 +:+ "@" +:+ domain.
Proof. reflexivity. Qed.

(** ** The cutoff filter *)

(** C3. [__should_skip_event] answers no when no cutoff is set, when the
    event has neither start nor end, and when it has a recurrence rule;
    otherwise it takes the end if present, else the start, reduces a date
    with a time to its calendar date, and answers yes exactly when that
    date is strictly earlier than the cutoff. *)
Theorem should_skip_event_spec (component : Event) (skip_events_before : option date) :
  should_skip_event component None = Ok false
  ∧ (component !! "DTSTART" = None → component !! "DTEND" = None →
     should_skip_event component skip_events_before = Ok false)
  ∧ (is_Some (component !! "RRULE") →
     should_skip_event component skip_events_before = Ok false)
  ∧ (∀ cutoff v d ps,
       skip_events_before = Some cutoff →
       component !! "RRULE" = None →
       component !! "DTEND" = Some v
       ∨ (component !! "DTEND" = None ∧ component !! "DTSTART" = Some v) →
       v = One (vDDDTypes d ps) →
       ∃ skip, should_skip_event component skip_events_before = Ok skip
         ∧ (skip = true ↔
            earlier (match d with DtDate day => day | DtDatetime t => dt_date t end)
                    cutoff)).
Proof.
  unfold should_skip_event, getitem. rewrite !has_lookup. upper_keys.
  repeat split.
  - destruct skip_events_before; [|done]. by intros -> ->.
  - destruct skip_events_before; [|done]. intros [r ->].
    by rewrite andb_false_r.
  - intros cutoff v d ps -> -> Hv ->.
    assert (date_of d = match d with DtDate day => day | DtDatetime t => dt_date t end)
      as <- by (by destruct d).
    exists (date_lt (date_of d) cutoff). rewrite date_lt_spec. split; [|done].
    destruct Hv as [-> | [-> ->]]; cbn; by destruct (date_lt _ _).
Qed.

(** ** The projector *)

Lemma copied_keys_NoDup : NoDup (map PyStr.upper copied_keys).
Proof. apply (bool_decide_unpack _). vm_compute. exact I. Qed.

Lemma bind_Ok {A B} (m : result A) (f : A → result B) b :
  m ≫= f = Ok b ↔ ∃ a, m = Ok a ∧ f a = Ok b.
Proof.
  destruct m as [a|e]; cbn.
  - split; [by exists a | by intros (? & [= ->] & ?)].
  - split; [done | by intros (? & ? & ?)].
Qed.

(** Without a mapper the projection fails only where the identifier
    cannot be derived. *)
Lemma project_event_total (component : Event) domain known_emails placeholder uid :
  generate_uid component domain = Ok uid →
  ∃ event, project_event component domain known_emails placeholder None = Ok event.
Proof. intros H. unfold project_event. rewrite H. cbn. by eexists. Qed.

(** What each key of a projected event holds. *)
Lemma project_event_lookup (component : Event) domain known_emails placeholder event :
  project_event component domain known_emails placeholder None = Ok event →
  ∃ uid, generate_uid component domain = Ok uid ∧
  ∀ k, event !! k =
    if decide (k = "STATUS") then Some (determine_status component known_emails)
    else if decide (k = "SUMMARY") then projected_summary component placeholder
    else if decide (k = "UID") then Some (py_str uid)
    else if decide (k ∈ map PyStr.upper copied_keys) then component !! k
    else None.
Proof.
  unfold project_event. intros (uid & Huid & Hev)%bind_Ok.
  exists uid. split; [done |]. injection Hev as <-. intros k.
  unfold setitem, projected_summary. upper_keys.
  assert ("SUMMARY" ∈ map PyStr.upper copied_keys) as Hsum by compute_done.
  pose proof (copy_event_lookup component copied_keys k copied_keys_NoDup) as Hcopy.
  destruct (decide (k = "STATUS")) as [-> | Hstatus].
  { by rewrite lookup_insert_eq. }
  rewrite lookup_insert_ne by done.
  destruct (decide (k = "SUMMARY")) as [-> | Hsummary].
  { rewrite decide_True in Hcopy by done.
    destruct placeholder as [p|]; [destruct (PyStr.truthy p) |];
      rewrite ?lookup_insert_eq, ?lookup_insert_ne by done; done. }
  assert ((<["UID" := py_str uid]> (copy_event component copied_keys) : Event) !! k
          = if decide (k = "UID") then Some (py_str uid)
            else if decide (k ∈ map PyStr.upper copied_keys) then component !! k
            else None) as Hbase.
  { destruct (decide (k = "UID")) as [-> | Huid'].
    - by rewrite lookup_insert_eq.
    - by rewrite lookup_insert_ne. }
  destruct placeholder as [p|]; [destruct (PyStr.truthy p) |];
    rewrite ?lookup_insert_ne by done; done.
Qed.

(** ** One source *)

(** The loop keeps every timezone, in order, and adds none. *)
Lemma process_components_timezones loaded domain known_emails cutoff placeholder
    mapper components out :
  process_components loaded domain known_emails cutoff placeholder mapper components
    = Ok out →
  List.filter is_timezone out
  = List.filter is_timezone components ++ List.filter is_timezone loaded.
Proof.
  revert components. induction loaded as [|c rest IH]; intros components.
  - cbn. intros [= <-]. by rewrite app_nil_r.
  - destruct c as [tz | e | name]; cbn [process_components].
    + intros H%IH. rewrite H, List.filter_app. cbn. by rewrite <- app_assoc.
    + intros (skip & Hskip & H)%bind_Ok. destruct skip.
      * by apply IH in H.
      * apply bind_Ok in H as (event & Hev & H). apply IH in H.
        rewrite H, List.filter_app. cbn. by rewrite app_nil_r.
    + intros H%IH. by rewrite H.
Qed.

(** Every event of the output is the projection of an event that the
    cutoff filter let through. *)
Lemma process_components_events loaded domain known_emails cutoff placeholder
    mapper components out event :
  process_components loaded domain known_emails cutoff placeholder mapper components
    = Ok out →
  CEvent event ∈ out →
  CEvent event ∈ components
  ∨ ∃ e, CEvent e ∈ loaded
       ∧ should_skip_event e cutoff = Ok false
       ∧ project_event e domain known_emails placeholder mapper = Ok event.
Proof.
  revert components. induction loaded as [|c rest IH]; intros components.
  - cbn. intros [= <-]. by left.
  - destruct c as [tz | e | name]; cbn [process_components].
    + intros H Hin. destruct (IH _ H Hin) as [Hc | (e & ? & ? & ?)].
      * apply elem_of_app in Hc as [Hc | Hc]; [by left |].
        apply list_elem_of_singleton in Hc. discriminate.
      * right. exists e. split; [by right | done].
    + intros (skip & Hskip & H)%bind_Ok Hin. destruct skip.
      * destruct (IH _ H Hin) as [Hc | (e' & ? & ? & ?)]; [by left |].
        right. exists e'. split; [by right | done].
      * apply bind_Ok in H as (ev & Hev & H).
        destruct (IH _ H Hin) as [Hc | (e' & ? & ? & ?)].
        -- apply elem_of_app in Hc as [Hc | Hc]; [by left |].
           apply list_elem_of_singleton in Hc. injection Hc as ->.
           right. exists e. split; [by left | done].
        -- right. exists e'. split; [by right | done].
    + intros H Hin. destruct (IH _ H Hin) as [Hc | (e & ? & ? & ?)]; [by left |].
      right. exists e. split; [by right | done].
Qed.

(** The loop fails only where the cutoff test or the derivation of the
    identifier fails for some event. *)
Lemma process_components_total loaded domain known_emails cutoff placeholder components :
  (∀ e, CEvent e ∈ loaded →
     ∃ skip uid, should_skip_event e cutoff = Ok skip
                 ∧ generate_uid e domain = Ok uid) →
  ∃ out,
    process_components loaded domain known_emails cutoff placeholder None components
    = Ok out.
Proof.
  revert components. induction loaded as [|c rest IH]; intros components Hall.
  - by eexists.
  - assert (∀ e, CEvent e ∈ rest →
              ∃ skip uid, should_skip_event e cutoff = Ok skip
                          ∧ generate_uid e domain = Ok uid) as Hrest
      by (intros e Hin; apply Hall; by right).
    destruct c as [tz | e | name]; cbn [process_components]; [by apply IH | | by apply IH].
    destruct (Hall e) as (skip & uid & -> & Huid); [by left |].
    cbn [mbind result_bind]. destruct skip; [by apply IH |].
    destruct (project_event_total e domain known_emails placeholder uid Huid)
      as [event ->].
    cbn [mbind result_bind]. by apply IH.
Qed.

(** ** The merge loop *)

Lemma add_components_app comps1 comps2 cal :
  add_components (comps1 ++ comps2) cal
  = add_components comps2 (add_components comps1 cal).
Proof. unfold add_components. apply fold_left_app. Qed.

Lemma add_components_spec comps cal :
  add_components comps cal
  = {| prodid := prodid cal; version := version cal;
       subcomponents := subcomponents cal ++ comps |}.
Proof.
  revert cal. induction comps as [|c comps IH]; intros cal.
  - cbn. rewrite app_nil_r. by destruct cal.
  - change (add_components (c :: comps) cal)
      with (add_components comps (add_component c cal)).
    rewrite IH. cbn. by rewrite <- app_assoc.
Qed.

Lemma source_components_no_data known_emails placeholder domain cutoff source :
  no_data (get_calendar_data source.1) = true →
  source_components known_emails placeholder domain cutoff source = Ok [].
Proof.
  unfold source_components, no_data.
  destruct (get_calendar_data source.1) as [text|]; [|done].
  by destruct (PyStr.truthy text).
Qed.

(** One turn of the loop adds what the source contributes. *)
Lemma merge_sources_cons source rest known_emails placeholder domain cutoff cal :
  merge_sources (source :: rest) known_emails placeholder domain cutoff cal
  = source_components known_emails placeholder domain cutoff source
    ≫= λ comps, merge_sources rest known_emails placeholder domain cutoff
                   (add_components comps cal).
Proof.
  destruct source as [url anonymize]. cbn [merge_sources].
  unfold source_components, no_data. cbn [fst snd].
  destruct (get_calendar_data url) as [text|]; [|done].
  by destruct (PyStr.truthy text).
Qed.

Lemma merge_sources_app before after known_emails placeholder domain cutoff cal :
  merge_sources (before ++ after) known_emails placeholder domain cutoff cal
  = merge_sources before known_emails placeholder domain cutoff cal
    ≫= merge_sources after known_emails placeholder domain cutoff.
Proof.
  revert cal. induction before as [|source before IH]; intros cal; [done |].
  rewrite <- app_comm_cons, !merge_sources_cons.
  destruct (source_components _ _ _ _ source); cbn; [apply IH | done].
Qed.

(** A source that contributes nothing can be left out. *)
Lemma merge_sources_skip before source after known_emails placeholder domain cutoff cal :
  source_components known_emails placeholder domain cutoff source = Ok [] →
  merge_sources (before ++ source :: after) known_emails placeholder domain cutoff cal
  = merge_sources (before ++ after) known_emails placeholder domain cutoff cal.
Proof.
  intros H. rewrite !merge_sources_app.
  destruct (merge_sources before _ _ _ _ cal) as [cal'|];
    cbn [mbind result_bind]; [|done].
  by rewrite merge_sources_cons, H.
Qed.

(** The loop succeeds exactly when every source does, and then appends
    the contributions in source order. *)
Lemma merge_sources_Ok sources known_emails placeholder domain cutoff cal cal' :
  merge_sources sources known_emails placeholder domain cutoff cal = Ok cal'
  ↔ ∃ outs,
      Forall2 (λ source out,
                 source_components known_emails placeholder domain cutoff source = Ok out)
              sources outs
      ∧ cal' = add_components (concat outs) cal.
Proof.
  revert cal. induction sources as [|source rest IH]; intros cal.
  - cbn. split.
    + intros [= <-]. exists []. split; [constructor | done].
    + intros (outs & Hall & ->). by inversion Hall.
  - rewrite merge_sources_cons, bind_Ok. split.
    + intros (comps & Hsrc & (outs & Hall & ->)%IH).
      exists (comps :: outs). split; [by constructor |].
      by rewrite concat_cons, add_components_app.
    + intros (outs & Hall & ->). inversion Hall as [|? comps ? outs' Hsrc Hrest]; subst.
      exists comps. split; [done |]. apply IH. exists outs'. split; [done |].
      by rewrite concat_cons, add_components_app.
Qed.

Lemma merged_calendar_Ok sources known_emails name placeholder domain cutoff cal :
  merged_calendar sources known_emails name placeholder domain cutoff = Ok cal
  ↔ ∃ outs,
      Forall2 (λ source out,
                 source_components known_emails placeholder domain cutoff source = Ok out)
              sources outs
      ∧ cal = {| prodid := name; version := "2.0"; subcomponents := concat outs |}.
Proof.
  unfold merged_calendar. rewrite merge_sources_Ok.
  by setoid_rewrite add_components_spec.
Qed.

Lemma elem_of_concat {A} (x : A) (ls : list (list A)) :
  x ∈ concat ls ↔ ∃ l, x ∈ l ∧ l ∈ ls.
Proof.
  rewrite list_elem_of_In, in_concat. split.
  - intros (l & Hl & Hx). exists l. by rewrite !list_elem_of_In.
  - intros (l & Hx & Hl). exists l. by rewrite <- !list_elem_of_In.
Qed.

(** Every component of the merged calendar comes from one of the sources. *)
Lemma merged_calendar_origin sources known_emails name placeholder domain cutoff cal c :
  merged_calendar sources known_emails name placeholder domain cutoff = Ok cal →
  c ∈ subcomponents cal →
  ∃ source out, source ∈ sources
    ∧ source_components known_emails placeholder domain cutoff source = Ok out
    ∧ c ∈ out.
Proof.
  intros (outs & Hall & ->)%merged_calendar_Ok. cbn.
  intros (out & Hc & Hout)%elem_of_concat.
  apply list_elem_of_lookup in Hout as [i Hi].
  destruct (Forall2_lookup_r _ _ _ _ _ Hall Hi) as (source & Hsrc & Hok).
  exists source, out. split; [|done]. by eapply list_elem_of_lookup_2.
Qed.

(** Every component a source contributes is in the merged calendar. *)
Lemma merged_calendar_contains sources known_emails name placeholder domain cutoff
    cal source out c :
  merged_calendar sources known_emails name placeholder domain cutoff = Ok cal →
  source ∈ sources →
  source_components known_emails placeholder domain cutoff source = Ok out →
  c ∈ out → c ∈ subcomponents cal.
Proof.
  intros (outs & Hall & ->)%merged_calendar_Ok Hin Hsrc Hc. cbn.
  apply list_elem_of_lookup in Hin as [i Hi].
  destruct (Forall2_lookup_l _ _ _ _ _ Hall Hi) as (out' & Hout' & Hok).
  assert (out' = out) as -> by congruence.
  apply elem_of_concat. exists out. split; [done |].
  by eapply list_elem_of_lookup_2.
Qed.

(** ** Failures *)

Lemma concat_all_nil {A B} (l : list A) :
  concat (map (λ _, @nil B) l) = [].
Proof. induction l; [done | by cbn]. Qed.

(** C4, as the code has it.  An error of the parser is not caught: it
    leaves [merge_calendars] at the first source whose text does not parse.
    Sources without data are passed over, so when every source is without
    data the empty calendar is returned; and whenever every source with
    data is processed without error, the calendar holding their components
    is returned. *)
Theorem merge_calendars_parse_error
    sources known_emails name placeholder domain cutoff :
  (∀ before url anonymize after calendar text e,
     sources = before ++ (url, anonymize) :: after →
     merged_calendar before known_emails name placeholder domain cutoff = Ok calendar →
     get_calendar_data url = Some text →
     PyStr.truthy text = true →
     from_ical text = Raise e →
     merge_calendars sources known_emails name placeholder domain cutoff = Raise e)
  ∧ (Forall (λ source, no_data (get_calendar_data source.1) = true) sources →
     merge_calendars sources known_emails name placeholder domain cutoff
     = Ok (calendar_to_ical
             {| prodid := name; version := "2.0"; subcomponents := [] |}))
  ∧ (∀ outs,
       Forall2 (λ source out,
                  source_components known_emails placeholder domain cutoff source = Ok out)
               sources outs →
       merge_calendars sources known_emails name placeholder domain cutoff
       = Ok (calendar_to_ical
               {| prodid := name; version := "2.0"; subcomponents := concat outs |})).
Proof.
  assert (∀ outs,
    Forall2 (λ source out,
               source_components known_emails placeholder domain cutoff source = Ok out)
            sources outs →
    merge_calendars sources known_emails name placeholder domain cutoff
    = Ok (calendar_to_ical
            {| prodid := name; version := "2.0"; subcomponents := concat outs |}))
    as Hall.
  { intros outs Houts. unfold merge_calendars.
    assert (merged_calendar sources known_emails name placeholder domain cutoff
            = Ok {| prodid := name; version := "2.0"; subcomponents := concat outs |})
      as -> by (apply merged_calendar_Ok; by exists outs).
    done. }
  split; [| split; [| done]].
  - intros before url anonymize after calendar text e -> Hbefore Hget Htext Hparse.
    unfold merge_calendars, merged_calendar in *.
    rewrite merge_sources_app, Hbefore. cbn [mbind result_bind].
    rewrite merge_sources_cons. unfold source_components. cbn [fst snd].
    rewrite Hget, Htext. unfold process_calendar_data. by rewrite Hparse.
  - intros Hnone.
    rewrite (Hall (map (λ _, []) sources)).
    + by rewrite concat_all_nil.
    + clear Hall. induction Hnone; constructor;
        [by apply source_components_no_data | done].
Qed.

(** C8. Whatever goes wrong while a source is retrieved (reading the
    file, the request, a scheme that is not recognised) becomes "no data",
    and the merge passes over such a source and goes on with the others:
    its result is that of the merge of the other sources; when the other
    sources go through, the merge returns the calendar that holds their
    components, in order; and whenever the merge returns, every component
    that another source yields is in the calendar. *)
Theorem fetch_failure_skips_source :
  (∀ url e, download url = Raise e → get_calendar_data url = None)
  ∧ (∀ url e,
       PyStr.startswith "file://" url = true →
       read_file (PyStr.drop 7 url) = Raise e →
       get_calendar_data url = None)
  ∧ (∀ url e,
       PyStr.startswith "file://" url = false →
       PyStr.startswith "http" url || PyStr.startswith "webcal://" url = true →
       urlopen (if PyStr.startswith "webcal://" url
                then PyStr.replace "webcal" "http" url else url) = Raise e →
       get_calendar_data url = None)
  ∧ (∀ url,
       PyStr.startswith "file://" url = false →
       PyStr.startswith "http" url = false →
       PyStr.startswith "webcal://" url = false →
       PyStr.startswith "data://" url = false →
       get_calendar_data url = None)
  ∧ (∀ before url anonymize after known_emails name placeholder domain cutoff,
       get_calendar_data url = None →
       merge_calendars (before ++ (url, anonymize) :: after)
         known_emails name placeholder domain cutoff
       = merge_calendars (before ++ after) known_emails name placeholder domain cutoff)
  ∧ (∀ before url anonymize after known_emails name placeholder domain cutoff
       outs_before outs_after,
       get_calendar_data url = None →
       Forall2 (λ source out,
                  source_components known_emails placeholder domain cutoff source = Ok out)
               before outs_before →
       Forall2 (λ source out,
                  source_components known_emails placeholder domain cutoff source = Ok out)
               after outs_after →
       merged_calendar (before ++ (url, anonymize) :: after)
         known_emails name placeholder domain cutoff
       = Ok {| prodid := name; version := "2.0";
               subcomponents := concat outs_before ++ concat outs_after |}
       ∧ merge_calendars (before ++ (url, anonymize) :: after)
           known_emails name placeholder domain cutoff
         = Ok (calendar_to_ical
                 {| prodid := name; version := "2.0";
                    subcomponents := concat outs_before ++ concat outs_after |}))
  ∧ (∀ before url anonymize after known_emails name placeholder domain cutoff
       calendar (source : string * bool) text out c,
       get_calendar_data url = None →
       merged_calendar (before ++ (url, anonymize) :: after)
         known_emails name placeholder domain cutoff = Ok calendar →
       source ∈ before ++ after →
       get_calendar_data source.1 = Some text →
       PyStr.truthy text = true →
       process_calendar_data text domain (known_or_empty known_emails) cutoff
         (if source.2 then Some placeholder else None) None = Ok out →
       c ∈ out →
       c ∈ subcomponents calendar).
Proof.
  split; [| split; [| split; [| split; [| split; [| split]]]]].
  - intros url e H. unfold get_calendar_data. by rewrite H.
  - intros url e Hfile Hread. unfold get_calendar_data, download.
    by rewrite Hfile, Hread.
  - intros url e Hfile Hhttp Hopen. unfold get_calendar_data, download.
    by rewrite Hfile, Hhttp, Hopen.
  - intros url Hfile Hhttp Hwebcal Hdata. unfold get_calendar_data, download.
    by rewrite Hfile, Hhttp, Hwebcal, Hdata.
  - intros before url anonymize after known_emails name placeholder domain cutoff Hget.
    unfold merge_calendars, merged_calendar. rewrite merge_sources_skip; [done |].
    apply source_components_no_data. cbn. by rewrite Hget.
  - intros before url anonymize after known_emails name placeholder domain cutoff
      outs_before outs_after Hget Hbefore Hafter.
    assert (merged_calendar (before ++ (url, anonymize) :: after)
              known_emails name placeholder domain cutoff
            = Ok {| prodid := name; version := "2.0";
                    subcomponents := concat outs_before ++ concat outs_after |})
      as Hmerged.
    { apply merged_calendar_Ok. exists (outs_before ++ [] :: outs_after). split.
      - apply Forall2_app; [done |]. constructor; [| done].
        apply source_components_no_data. cbn. by rewrite Hget.
      - by rewrite concat_app. }
    split; [done |]. unfold merge_calendars. by rewrite Hmerged.
  - intros before url anonymize after known_emails name placeholder domain cutoff
      calendar source text out c Hget Hmerged Hin Htext Htruthy Hout Hc.
    eapply merged_calendar_contains; [exact Hmerged | | | exact Hc].
    + apply elem_of_app in Hin as [Hin | Hin]; apply elem_of_app;
        [by left | right; by right].
    + unfold source_components. by rewrite Htext, Htruthy.
Qed.

(** C9. A source whose text is the empty string, such as [data://], is
    passed over like a source that could not be retrieved: the parser is
    not called on it and the result is that of the merge without it. *)
Theorem empty_text_skips_source :
  get_calendar_data "data://" = Some ""
  ∧ no_data (Some "") = no_data None
  ∧ (∀ before url anonymize after known_emails name placeholder domain cutoff,
       get_calendar_data url = Some "" →
       merge_calendars (before ++ (url, anonymize) :: after)
         known_emails name placeholder domain cutoff
       = merge_calendars (before ++ after) known_emails name placeholder domain cutoff)
  ∧ (∀ before url url' anonymize after known_emails name placeholder domain cutoff,
       get_calendar_data url = Some "" →
       get_calendar_data url' = None →
       merge_calendars (before ++ (url, anonymize) :: after)
         known_emails name placeholder domain cutoff
       = merge_calendars (before ++ (url', anonymize) :: after)
           known_emails name placeholder domain cutoff).
Proof.
  assert (∀ before url anonymize after known_emails name placeholder domain cutoff,
    no_data (get_calendar_data url) = true →
    merge_calendars (before ++ (url, anonymize) :: after)
      known_emails name placeholder domain cutoff
    = merge_calendars (before ++ after) known_emails name placeholder domain cutoff)
    as Hskip.
  { intros. unfold merge_calendars, merged_calendar.
    rewrite merge_sources_skip; [done |]. by apply source_components_no_data. }
  repeat split.
  - intros. apply Hskip. by rewrite H.
  - intros ? ? ? ? ? ? ? ? ? ? Hempty Hnone.
    rewrite !Hskip; [done | by rewrite Hnone | by rewrite Hempty].
Qed.

(** ** What reaches the output *)

Lemma process_components_no_event loaded domain known_emails cutoff placeholder
    mapper components :
  (∀ e, CEvent e ∉ loaded) →
  process_components loaded domain known_emails cutoff placeholder mapper components
  = Ok (components ++ List.filter is_timezone loaded).
Proof.
  revert components. induction loaded as [|c rest IH]; intros components Hno.
  - cbn. by rewrite app_nil_r.
  - assert (∀ e, CEvent e ∉ rest) as Hrest
      by (intros e Hin; apply (Hno e); by right).
    destruct c as [tz | e | name]; cbn [process_components List.filter is_timezone].
    + rewrite IH by done. by rewrite <- app_assoc.
    + destruct (Hno e). by left.
    + by apply IH.
Qed.

(** C6. Timezones pass through: the components a source yields contain
    the timezones of the parsed calendar, each as it was parsed, in the
    same order and number; a calendar without events always yields exactly
    its timezones; and every timezone of every source that was parsed is a
    component of the merged calendar. *)
Theorem timezones_pass_through :
  (∀ text domain known_emails cutoff placeholder mapper loaded out,
     from_ical text = Ok loaded →
     process_calendar_data text domain known_emails cutoff placeholder mapper = Ok out →
     List.filter is_timezone out = List.filter is_timezone loaded)
  ∧ (∀ text domain known_emails cutoff placeholder mapper loaded,
       from_ical text = Ok loaded →
       (∀ e, CEvent e ∉ loaded) →
       process_calendar_data text domain known_emails cutoff placeholder mapper
       = Ok (List.filter is_timezone loaded))
  ∧ (∀ sources known_emails name placeholder domain cutoff calendar
       url anonymize text loaded tz,
       merged_calendar sources known_emails name placeholder domain cutoff = Ok calendar →
       (url, anonymize) ∈ sources →
       get_calendar_data url = Some text →
       PyStr.truthy text = true →
       from_ical text = Ok loaded →
       CTimezone tz ∈ loaded →
       CTimezone tz ∈ subcomponents calendar).
Proof.
  assert (∀ text domain known_emails cutoff placeholder mapper loaded out,
     from_ical text = Ok loaded →
     process_calendar_data text domain known_emails cutoff placeholder mapper = Ok out →
     List.filter is_timezone out = List.filter is_timezone loaded) as Hone.
  { intros text domain known_emails cutoff placeholder mapper loaded out Hparse.
    unfold process_calendar_data. rewrite Hparse. cbn [mbind result_bind].
    by intros H%process_components_timezones. }
  split; [done | split].
  - intros text domain known_emails cutoff placeholder mapper loaded Hparse Hno.
    unfold process_calendar_data. rewrite Hparse. cbn [mbind result_bind].
    by rewrite process_components_no_event.
  - intros sources known_emails name placeholder domain cutoff calendar
      url anonymize text loaded tz Hmerged Hin Hget Htext Hparse Htz.
    pose proof Hmerged as (outs & Hall & _)%merged_calendar_Ok.
    apply list_elem_of_lookup in Hin as [i Hi].
    destruct (Forall2_lookup_l _ _ _ _ _ Hall Hi) as (out & _ & Hout).
    eapply merged_calendar_contains;
      [done | by eapply list_elem_of_lookup_2 | done |].
    unfold source_components in Hout. cbn [fst snd] in Hout.
    rewrite Hget, Htext in Hout.
    apply (Hone _ _ _ _ _ _ _ _ Hparse) in Hout.
    assert (CTimezone tz ∈ List.filter is_timezone out) as Hfil.
    { rewrite Hout. apply list_elem_of_In, filter_In.
      by rewrite <- list_elem_of_In. }
    apply list_elem_of_In, filter_In in Hfil as [Hfil _].
    by apply list_elem_of_In.
Qed.

(** C7. No event of the merged calendar has an attendee field: an output
    event holds the derived uid and keys of the copy list, nothing else. *)
Theorem no_attendee_in_output
    sources known_emails name placeholder domain cutoff calendar event :
  merged_calendar sources known_emails name placeholder domain cutoff = Ok calendar →
  CEvent event ∈ subcomponents calendar →
  event !! "ATTENDEE" = None
  ∧ has "attendee" event = false
  ∧ ∀ k, is_Some (event !! k) → k ∈ output_keys.
Proof.
  intros Hmerged Hin.
  destruct (merged_calendar_origin _ _ _ _ _ _ _ _ Hmerged Hin)
    as ([url anonymize] & out & _ & Hsrc & Hout).
  unfold source_components in Hsrc. cbn [fst snd] in Hsrc.
  destruct (get_calendar_data url) as [text|];
    [destruct (PyStr.truthy text) |];
    [| injection Hsrc as <-; by apply elem_of_nil in Hout ..].
  unfold process_calendar_data in Hsrc.
  apply bind_Ok in Hsrc as (loaded & _ & Hsrc).
  destruct (process_components_events _ _ _ _ _ _ _ _ _ Hsrc Hout)
    as [Hnil | (e & _ & _ & Hproj)]; [by apply elem_of_nil in Hnil |].
  apply project_event_lookup in Hproj as (uid & _ & Hlook).
  assert (event !! "ATTENDEE" = None) as Hnone by (by rewrite Hlook).
  split; [done | split].
  - by apply has_false.
  - intros k. rewrite Hlook. unfold output_keys.
    repeat case_decide; subst; intros Hk.
    + compute_done.
    + compute_done.
    + by left.
    + by right.
    + by destruct Hk.
Qed.

(** ** The placeholder *)

Lemma process_components_empty_placeholder loaded domain known_emails cutoff
    mapper components :
  process_components loaded domain known_emails cutoff (Some "") mapper components
  = process_components loaded domain known_emails cutoff None mapper components.
Proof.
  revert components. induction loaded as [|c rest IH]; intros components; [done |].
  destruct c as [tz | e | name]; cbn [process_components]; [done | | done].
  destruct (should_skip_event e cutoff) as [[|]|]; cbn [mbind result_bind];
    [done | | done].
  change (project_event e domain known_emails (Some "") mapper)
    with (project_event e domain known_emails None mapper).
  destruct (project_event e domain known_emails None mapper);
    cbn [mbind result_bind]; done.
Qed.

(** C10. With the empty string as placeholder nothing is replaced: the
    projection is the one made without a placeholder, the summary of the
    new event is the summary of the source event, and the merge gives what
    it gives when no source is anonymized. *)
Theorem empty_placeholder_keeps_summary :
  (∀ component domain known_emails mapper,
     project_event component domain known_emails (Some "") mapper
     = project_event component domain known_emails None mapper)
  ∧ (∀ component domain known_emails event,
       project_event component domain known_emails (Some "") None = Ok event →
       event !! "SUMMARY" = component !! "SUMMARY")
  ∧ (∀ sources known_emails name domain cutoff,
       merge_calendars sources known_emails name "" domain cutoff
       = merge_calendars (plain sources) known_emails name "" domain cutoff).
Proof.
  split; [done | split].
  - intros component domain known_emails event
      (uid & _ & Hlook)%project_event_lookup.
    by rewrite Hlook.
  - intros sources known_emails name domain cutoff.
    unfold merge_calendars, merged_calendar. f_equal.
    generalize {| prodid := name; version := "2.0"; subcomponents := [] |}.
    induction sources as [|[url anonymize] rest IH]; intros cal; [done |].
    cbn [plain map fst snd]. rewrite !merge_sources_cons.
    assert (source_components known_emails "" domain cutoff (url, anonymize)
            = source_components known_emails "" domain cutoff (url, false)) as ->.
    { unfold source_components, process_calendar_data. cbn [fst snd].
      destruct (get_calendar_data url) as [text|]; [|done].
      destruct (PyStr.truthy text); [|done].
      destruct (from_ical text); cbn [mbind result_bind]; [|done].
      destruct anonymize; [apply process_components_empty_placeholder | done]. }
    destruct (source_components _ _ _ _ _); cbn [mbind result_bind]; [|done].
    apply IH.
Qed.

(** ** Further properties of the copy *)



(** ** Further properties of the cutoff filter *)

(** X3. A later cutoff drops at least as much: an event skipped for one
    cutoff is skipped for every cutoff that is not before it. *)
Theorem should_skip_event_monotone (component : Event) cutoff cutoff' :
  should_skip_event component (Some cutoff) = Ok true →
  not_after cutoff cutoff' →
  should_skip_event component (Some cutoff') = Ok true.
Proof.
  intros Hskip [<- | Hlater]; [done |]. revert Hskip.
  unfold should_skip_event.
  destruct ((has "dtend" component || has "dtstart" component)
            && negb (has "rrule" component)); [| done].
  destruct (if has "dtend" component
            then getitem "dtend" component
            else getitem "dtstart" component) as [v|]; [| done].
  cbn [mbind result_bind]. destruct (dt v) as [d|]; [| done].
  cbn [mbind result_bind].
  destruct (date_lt (date_of d) cutoff) eqn:E; [| done]. intros _.
  apply date_lt_spec in E.
  assert (date_lt (date_of d) cutoff' = true) as ->; [| done].
  apply date_lt_spec. by eapply earlier_trans.
Qed.

(** X4. With a cutoff set and no recurrence rule, an end (or, without
    end, a start) that is a list of values makes [__should_skip_event]
    raise AttributeError: a list has no [dt].
    Without cutoff the same event is simply kept. *)
Theorem should_skip_event_repeated_line (component : Event) cutoff values :
  component !! "RRULE" = None →
  component !! "DTEND" = Some (Many values)
  ∨ (component !! "DTEND" = None ∧ component !! "DTSTART" = Some (Many values)) →
  should_skip_event component (Some cutoff) = Raise AttributeError
  ∧ should_skip_event component None = Ok false.
Proof.
  intros Hrule Hv. split; [| done].
  unfold should_skip_event, getitem. rewrite !has_lookup. upper_keys.
  rewrite Hrule. by destruct Hv as [-> | [-> ->]].
Qed.

(** ** Further properties of the status *)

Lemma determine_status_ext (component component' : Event) known_emails known_emails' :
  component !! "STATUS" = component' !! "STATUS" →
  (known_emails = [] ↔ known_emails' = []) →
  match component !! "ATTENDEE", component' !! "ATTENDEE" with
  | Some att, Some att' =>
      ∀ s, answered known_emails att s ↔ answered known_emails' att' s
  | None, None => True
  | _, _ => False
  end →
  determine_status component known_emails = determine_status component' known_emails'.
Proof.
  intros Hst Hnil Hatt. unfold determine_status. upper_keys. rewrite Hst.
  destruct (component !! "ATTENDEE") as [att|],
           (component' !! "ATTENDEE") as [att'|]; try done.
  assert ((0 <? length known_emails)%nat = (0 <? length known_emails')%nat) as ->.
  { destruct known_emails, known_emails'; try done.
    - by destruct (proj1 Hnil).
    - by destruct (proj2 Hnil). }
  destruct (0 <? length known_emails')%nat; [| done]. cbv zeta.
  assert (∀ s,
    bool_decide (Some s ∈ map partstat (List.filter (is_known known_emails) (as_list att)))
    = bool_decide (Some s ∈ map partstat (List.filter (is_known known_emails') (as_list att'))))
    as Hsame.
  { intros s. apply bool_decide_ext. rewrite !partstats_spec. apply Hatt. }
  by rewrite !Hsame.
Qed.

Lemma determine_status_accepted (component : Event) known_emails att :
  component !! "ATTENDEE" = Some att →
  answered known_emails att "ACCEPTED" →
  determine_status component known_emails = py_str "CONFIRMED".
Proof.
  intros Hatt Hacc. unfold determine_status. upper_keys. rewrite Hatt.
  assert ((0 <? length known_emails)%nat = true) as ->.
  { destruct Hacc as (a & _ & (_ & email & Hin & _) & _).
    destruct known_emails; [by apply elem_of_nil in Hin | done]. }
  cbv zeta. by rewrite bool_decide_true by (by apply partstats_spec).
Qed.

(** X5. When no attendee with parameters mentions a known address (so
    also without attendees, or without known addresses), the status is the
    stored one, or CONFIRMED when the event stores none. *)
Theorem determine_status_nobody_known (component : Event) known_emails :
  (∀ att a, component !! "ATTENDEE" = Some att → a ∈ as_list att →
            ¬ known known_emails a) →
  determine_status component known_emails = stored_status component.
Proof.
  intros Hnone. unfold determine_status, stored_status. upper_keys.
  destruct (component !! "ATTENDEE") as [att|] eqn:Hatt; [| done].
  destruct (0 <? length known_emails)%nat; [| done]. cbv zeta.
  assert (∀ s, ¬ answered known_emails att s) as Hno.
  { intros s (a & Hin & Hk & _). by apply (Hnone att a). }
  rewrite !bool_decide_false by (rewrite partstats_spec; apply Hno). done.
Qed.

(** X6. The status depends neither on the order of the attendees nor on
    the order or repetition of the known addresses; a single attendee and
    a one-element list of attendees are treated alike. *)
Theorem determine_status_order (component : Event) known_emails :
  (∀ att att', component !! "ATTENDEE" = Some att →
     as_list att ≡ₚ as_list att' →
     determine_status (<["ATTENDEE" := att']> component) known_emails
     = determine_status component known_emails)
  ∧ (∀ known_emails', (∀ email, email ∈ known_emails ↔ email ∈ known_emails') →
     determine_status component known_emails'
     = determine_status component known_emails).
Proof.
  split.
  - intros att att' Hatt Hperm. apply determine_status_ext.
    + by rewrite lookup_insert_ne.
    + done.
    + rewrite lookup_insert_eq, Hatt. intros s. unfold answered.
      by setoid_rewrite Hperm.
  - intros known_emails' Hsame. apply determine_status_ext; [done | |].
    + destruct known_emails as [|e ?], known_emails' as [|e' ?]; try done.
      * assert (e' ∈ @nil string) as H by (apply Hsame; left).
        by apply elem_of_nil in H.
      * assert (e ∈ @nil string) as H by (apply Hsame; left).
        by apply elem_of_nil in H.
    + destruct (component !! "ATTENDEE") as [att|]; [| done].
      intros s. unfold answered, known. by setoid_rewrite Hsame.
Qed.

(** X7. The empty string among the known addresses matches every
    attendee that has parameters, since it occurs in every text: any such
    attendee who accepted then confirms the event. *)
Theorem determine_status_empty_address (component : Event) known_emails att a :
  "" ∈ known_emails →
  component !! "ATTENDEE" = Some att →
  a ∈ as_list att →
  partstat a = Some "ACCEPTED" →
  is_known known_emails a = true
  ∧ determine_status component known_emails = py_str "CONFIRMED".
Proof.
  intros Hempty Hatt Hin Hacc.
  assert (known known_emails a) as Hk.
  { split.
    - unfold partstat in Hacc. by destruct (params_of a).
    - exists "". split; [done |]. by exists "", (raw_ical a). }
  split; [by apply is_known_spec |].
  apply (determine_status_accepted _ _ att); [done |]. by exists a.
Qed.

(** X8. The status is never anything but one of the three literals
    CONFIRMED, CANCELLED and TENTATIVE, or the value the event stores. *)
Theorem determine_status_range (component : Event) known_emails :
  determine_status component known_emails
  ∈ [py_str "CONFIRMED"; py_str "CANCELLED"; py_str "TENTATIVE";
     stored_status component].
Proof.
  unfold determine_status, stored_status. upper_keys.
  destruct (component !! "STATUS") as [stored|]; cbn [default];
    destruct (component !! "ATTENDEE") as [att|];
    try destruct (0 <? length known_emails)%nat; cbv zeta;
    repeat case_bool_decide; cbn [orb];
    repeat (first [apply list_elem_of_here | apply list_elem_of_further]).
Qed.

(** ** Further properties of the derived identifier *)

Lemma string_length_append a b :
  String.length (a +:+ b) = (String.length a + String.length b)%nat.
Proof. induction a as [|c a IH]; [done |]. rewrite append_cons. cbn. by rewrite IH. Qed.

Lemma drop_append h t : PyStr.drop (String.length h) (h +:+ t) = t.
Proof. induction h as [|c h IH]; [by destruct t |]. by rewrite append_cons. Qed.

(** X9. A derived identifier is 33 characters longer than the domain:
    after the 32 characters of the digest come the at sign and the domain
    itself, so identifiers made for different domains differ. *)
Theorem generate_uid_scoped (component : Event) (domain uid : string) :
  generate_uid component domain = Ok uid →
  String.length uid = (33 + String.length domain)%nat
  ∧ PyStr.drop 32 uid = "@" +:+ domain
  ∧ ∀ domain', generate_uid component domain' = Ok uid → domain' = domain.
Proof.
  assert (∀ d u, generate_uid component d = Ok u →
            String.length u = (33 + String.length d)%nat
            ∧ PyStr.drop 32 u = "@" +:+ d) as Hshape.
  { intros d u. unfold generate_uid. intros (base & _ & [= <-])%bind_Ok.
    destruct (hexdigest_shape base) as [Hlen _]. split.
    - rewrite !string_length_append, Hlen. done.
    - rewrite <- Hlen. apply drop_append. }
  intros Huid. destruct (Hshape _ _ Huid) as [Hlen Hdrop].
  split; [done | split; [done |]].
  intros domain' Huid'. destruct (Hshape _ _ Huid') as [_ Hdrop'].
  rewrite Hdrop in Hdrop'. by injection Hdrop'.
Qed.

(** X10. A uid that is a list of values makes
    [__generate_uid] raise AttributeError: a list has no [encode], and the
    content of the event is not hashed instead.  When the values of the
    event are typed, so that the copy goes through, the projection of the
    event raises AttributeError as well. *)
Theorem generate_uid_repeated_line (component : Event) domain uids :
  component !! "UID" = Some (Many uids) →
  generate_uid component domain = Raise AttributeError
  ∧ (all_typed component →
     ∀ known_emails placeholder mapper,
       project_event component domain known_emails placeholder mapper
       = Raise AttributeError).
Proof.
  intros Huid.
  assert (generate_uid component domain = Raise AttributeError) as Hgen.
  { unfold generate_uid, uid_source, getitem. rewrite has_lookup. upper_keys.
    by rewrite Huid. }
  split; [done |]. intros _ ? ? ?. unfold project_event. by rewrite Hgen.
Qed.

(** ** Further properties of one source *)

Lemma process_components_app loaded loaded' domain known_emails cutoff placeholder
    mapper components :
  process_components (loaded ++ loaded') domain known_emails cutoff placeholder
    mapper components
  = process_components loaded domain known_emails cutoff placeholder mapper components
    ≫= process_components loaded' domain known_emails cutoff placeholder mapper.
Proof.
  revert components. induction loaded as [|c rest IH]; intros components; [done |].
  rewrite <- app_comm_cons.
  destruct c as [tz | e | name]; cbn [process_components]; [apply IH | | apply IH].
  destruct (should_skip_event e cutoff) as [[|]|]; cbn [mbind result_bind];
    [apply IH | | done].
  destruct (project_event e domain known_emails placeholder mapper);
    cbn [mbind result_bind]; [apply IH | done].
Qed.

Lemma events_of_app l1 l2 : events_of (l1 ++ l2) = events_of l1 ++ events_of l2.
Proof. apply flat_map_app. Qed.

Lemma process_components_projections loaded domain known_emails cutoff placeholder
    mapper components out :
  process_components loaded domain known_emails cutoff placeholder mapper components
    = Ok out →
  ∃ events,
    events_of out = events_of components ++ events
    ∧ Forall2 (λ e event,
                 project_event e domain known_emails placeholder mapper = Ok event)
              (List.filter (passes cutoff) (events_of loaded)) events.
Proof.
  revert components. induction loaded as [|c rest IH]; intros components.
  - cbn. intros [= <-]. exists []. by rewrite app_nil_r.
  - destruct c as [tz | e | name]; cbn [process_components].
    + intros (events & Hout & Hall)%IH. exists events.
      by rewrite Hout, events_of_app, app_nil_r.
    + intros (skip & Hskip & H)%bind_Ok.
      change (events_of (CEvent e :: rest)) with (e :: events_of rest).
      cbn [List.filter]. unfold passes at 1. rewrite Hskip. destruct skip.
      * by apply IH.
      * apply bind_Ok in H as (event & Hev & (events & Hout & Hall)%IH).
        exists (event :: events). split; [| by constructor].
        rewrite Hout, events_of_app. by rewrite <- app_assoc.
    + intros (events & Hout & Hall)%IH. by exists events.
Qed.

Lemma filter_passes_no_cutoff events : List.filter (passes None) events = events.
Proof. induction events as [|e events IH]; [done |]. cbn. by rewrite IH. Qed.

(** X11. The events a source yields are, in the order of the parsed
    calendar, the projections of exactly those events that the cutoff test
    lets through; without cutoff, of all its events. *)
Theorem process_calendar_data_events
    text domain known_emails cutoff placeholder mapper loaded out :
  from_ical text = Ok loaded →
  process_calendar_data text domain known_emails cutoff placeholder mapper = Ok out →
  Forall2 (λ e event,
             project_event e domain known_emails placeholder mapper = Ok event)
          (List.filter (passes cutoff) (events_of loaded)) (events_of out)
  ∧ (cutoff = None →
     Forall2 (λ e event,
                project_event e domain known_emails placeholder mapper = Ok event)
             (events_of loaded) (events_of out)).
Proof.
  intros Hparse. unfold process_calendar_data. rewrite Hparse.
  cbn [mbind result_bind].
  intros (events & -> & Hall)%process_components_projections.
  split; [done |]. intros ->. by rewrite filter_passes_no_cutoff in Hall.
Qed.

Lemma process_components_kinds loaded domain known_emails cutoff placeholder
    mapper components out :
  process_components loaded domain known_emails cutoff placeholder mapper components
    = Ok out →
  Forall (λ c, is_other c = false) components →
  Forall (λ c, is_other c = false) out.
Proof.
  revert components. induction loaded as [|c rest IH]; intros components.
  - cbn. by intros [= <-].
  - destruct c as [tz | e | name]; cbn [process_components].
    + intros H Hacc. apply (IH _ H). apply Forall_app. split; [done |].
      by repeat constructor.
    + intros (skip & Hskip & H)%bind_Ok Hacc. destruct skip; [by apply (IH _ H) |].
      apply bind_Ok in H as (event & Hev & H). apply (IH _ H).
      apply Forall_app. split; [done |]. by repeat constructor.
    + apply IH.
Qed.

(** ** Further properties of the merge *)

(** Every event of the merged calendar is the projection of an event of
    some source that the cutoff test let through. *)
Lemma merged_event_origin sources known_emails name placeholder domain cutoff
    calendar event :
  merged_calendar sources known_emails name placeholder domain cutoff = Ok calendar →
  CEvent event ∈ subcomponents calendar →
  ∃ (source : string * bool) text loaded e,
    source ∈ sources
    ∧ get_calendar_data source.1 = Some text
    ∧ from_ical text = Ok loaded
    ∧ CEvent e ∈ loaded
    ∧ should_skip_event e cutoff = Ok false
    ∧ project_event e domain (known_or_empty known_emails)
        (if source.2 then Some placeholder else None) None = Ok event.
Proof.
  intros Hmerged Hin.
  destruct (merged_calendar_origin _ _ _ _ _ _ _ _ Hmerged Hin)
    as (source & out & Hsource & Hsrc & Hout).
  unfold source_components in Hsrc.
  destruct (get_calendar_data source.1) as [text|] eqn:Hget;
    [destruct (PyStr.truthy text) |];
    [| injection Hsrc as <-; by apply elem_of_nil in Hout ..].
  unfold process_calendar_data in Hsrc.
  apply bind_Ok in Hsrc as (loaded & Hparse & Hsrc).
  destruct (process_components_events _ _ _ _ _ _ _ _ _ Hsrc Hout)
    as [Hnil | (e & He & Hskip & Hproj)]; [by apply elem_of_nil in Hnil |].
  by exists source, text, loaded, e.
Qed.

(** X12. Every event of the merged calendar carries a UID, which is a
    plain string ending in the at sign and the configured domain, and a
    STATUS. *)
Theorem merged_events_identified
    sources known_emails name placeholder domain cutoff calendar event :
  merged_calendar sources known_emails name placeholder domain cutoff = Ok calendar →
  CEvent event ∈ subcomponents calendar →
  (∃ uid, event !! "UID" = Some (py_str uid)
          ∧ PyStr.drop 32 uid = "@" +:+ domain)
  ∧ is_Some (event !! "STATUS").
Proof.
  intros Hmerged Hin.
  destruct (merged_event_origin _ _ _ _ _ _ _ _ Hmerged Hin)
    as (source & text & loaded & e & _ & _ & _ & _ & _ & Hproj).
  apply project_event_lookup in Hproj as (uid & Huid & Hlook). split.
  - exists uid. split; [by rewrite Hlook |].
    unfold generate_uid in Huid. apply bind_Ok in Huid as (base & _ & [= <-]).
    destruct (hexdigest_shape base) as [Hlen _]. rewrite <- Hlen.
    apply drop_append.
  - rewrite Hlook. by eexists.
Qed.

(** X13. With a non-empty placeholder and every source anonymized, every
    event of the merged calendar has the placeholder as its summary, also
    where the source event had none; with no source anonymized, every
    event is the projection of an event parsed from one of the sources and
    has the summary of that event, or none when that event has none. *)
Theorem merged_summaries
    sources known_emails name placeholder domain cutoff calendar event :
  merged_calendar sources known_emails name placeholder domain cutoff = Ok calendar →
  CEvent event ∈ subcomponents calendar →
  (PyStr.truthy placeholder = true →
   Forall (λ source : string * bool, source.2 = true) sources →
   event !! "SUMMARY" = Some (py_str placeholder))
  ∧ (Forall (λ source : string * bool, source.2 = false) sources →
     ∃ (source : string * bool) text loaded e,
       source ∈ sources
       ∧ get_calendar_data source.1 = Some text
       ∧ from_ical text = Ok loaded
       ∧ CEvent e ∈ loaded
       ∧ project_event e domain (known_or_empty known_emails) None None = Ok event
       ∧ event !! "SUMMARY" = e !! "SUMMARY").
Proof.
  intros Hmerged Hin.
  destruct (merged_event_origin _ _ _ _ _ _ _ _ Hmerged Hin)
    as (source & text & loaded & e & Hsource & Hget & Hparse & He & _ & Hproj).
  pose proof Hproj as (uid & _ & Hlook)%project_event_lookup. split.
  - intros Htruthy Hall. rewrite Forall_forall in Hall.
    rewrite Hlook, (Hall source Hsource). cbn. by rewrite Htruthy.
  - intros Hall. rewrite Forall_forall in Hall. exists source, text, loaded, e.
    rewrite (Hall source Hsource) in Hproj, Hlook.
    repeat (split; [done |]). by rewrite Hlook.
Qed.

(** X14. When no source is anonymized the placeholder plays no part. *)
Theorem placeholder_unused
    sources known_emails name placeholder placeholder' domain cutoff :
  Forall (λ source : string * bool, source.2 = false) sources →
  merge_calendars sources known_emails name placeholder domain cutoff
  = merge_calendars sources known_emails name placeholder' domain cutoff.
Proof.
  intros Hall. unfold merge_calendars, merged_calendar. f_equal.
  generalize {| prodid := name; version := "2.0"; subcomponents := [] |}.
  induction Hall as [|[url anonymize] rest Hflag Hrest IH]; intros cal; [done |].
  cbn in Hflag. subst anonymize. rewrite !merge_sources_cons.
  change (source_components known_emails placeholder domain cutoff (url, false))
    with (source_components known_emails placeholder' domain cutoff (url, false)).
  destruct (source_components _ _ _ _ _); cbn [mbind result_bind]; [apply IH | done].
Qed.

(** X15. The merged calendar has the given name as product id, version
    2.0, and only timezones and events as components: whatever else a
    source holds is left out. *)
Theorem merged_calendar_shape
    sources known_emails name placeholder domain cutoff calendar :
  merged_calendar sources known_emails name placeholder domain cutoff = Ok calendar →
  prodid calendar = name
  ∧ version calendar = "2.0"
  ∧ Forall (λ c, is_other c = false) (subcomponents calendar).
Proof.
  intros Hmerged. pose proof Hmerged as (outs & _ & ->)%merged_calendar_Ok.
  split; [done | split; [done |]]. apply Forall_forall. intros c Hc.
  destruct (merged_calendar_origin _ _ _ _ _ _ _ _ Hmerged Hc)
    as (source & out & _ & Hsrc & Hout).
  unfold source_components, process_calendar_data in Hsrc.
  destruct (get_calendar_data source.1) as [text|];
    [destruct (PyStr.truthy text) |];
    [| injection Hsrc as <-; by apply elem_of_nil in Hout ..].
  apply bind_Ok in Hsrc as (loaded & _ & Hsrc).
  apply process_components_kinds in Hsrc; [| constructor].
  rewrite Forall_forall in Hsrc. by apply Hsrc.
Qed.

(** X16. Merging a list of sources followed by another succeeds exactly
    when merging each succeeds, and its components are those of the first
    merge followed by those of the second. *)
Theorem merged_calendar_app
    sources sources' known_emails name placeholder domain cutoff calendar :
  merged_calendar (sources ++ sources') known_emails name placeholder domain cutoff
    = Ok calendar
  ↔ ∃ first second,
      merged_calendar sources known_emails name placeholder domain cutoff = Ok first
      ∧ merged_calendar sources' known_emails name placeholder domain cutoff = Ok second
      ∧ calendar = {| prodid := name; version := "2.0";
                      subcomponents := subcomponents first ++ subcomponents second |}.
Proof.
  split.
  - intros (outs & Hall & ->)%merged_calendar_Ok.
    apply Forall2_app_inv_l in Hall as (outs1 & outs2 & Hall1 & Hall2 & ->).
    eexists; eexists. split; [apply merged_calendar_Ok; by eexists |].
    split; [apply merged_calendar_Ok; by eexists |].
    cbn. by rewrite concat_app.
  - intros (first & second & (outs1 & Hall1 & ->)%merged_calendar_Ok
            & (outs2 & Hall2 & ->)%merged_calendar_Ok & ->).
    apply merged_calendar_Ok. exists (outs1 ++ outs2).
    split; [by apply Forall2_app |]. cbn. by rewrite concat_app.
Qed.

(** X17. Where the parser yields typed values, an event whose end is a
    list of values (with a cutoff set and no recurrence rule), or one that
    passes the cutoff test and whose uid is a list of values, ends the whole
    merge with AttributeError, whatever comes after it, once the sources
    and the components before it went through. *)
Theorem merge_calendars_event_error
    before url (anonymize : bool) after known_emails name placeholder domain cutoff
    calendar text earlier_components e later_components kept :
  parser_typed →
  merged_calendar before known_emails name placeholder domain cutoff = Ok calendar →
  get_calendar_data url = Some text →
  PyStr.truthy text = true →
  from_ical text = Ok (earlier_components ++ CEvent e :: later_components) →
  process_components earlier_components domain (known_or_empty known_emails) cutoff
    (if anonymize then Some placeholder else None) None [] = Ok kept →
  (∃ values, is_Some cutoff ∧ e !! "RRULE" = None
             ∧ e !! "DTEND" = Some (Many values))
  ∨ (∃ uids, should_skip_event e cutoff = Ok false
             ∧ e !! "UID" = Some (Many uids)) →
  merge_calendars (before ++ (url, anonymize) :: after)
    known_emails name placeholder domain cutoff
  = Raise AttributeError.
Proof.
  intros _ Hbefore Hget Htext Hparse Hkept Herr.
  unfold merge_calendars, merged_calendar in *.
  rewrite merge_sources_app, Hbefore. cbn [mbind result_bind].
  rewrite merge_sources_cons. unfold source_components. cbn [fst snd].
  rewrite Hget, Htext. unfold process_calendar_data. rewrite Hparse.
  cbn [mbind result_bind]. rewrite process_components_app, Hkept.
  cbn [mbind result_bind process_components].
  destruct Herr as [(values & [date ->] & Hrule & Hend) | (uids & -> & Huid)].
  - assert (should_skip_event e (Some date) = Raise AttributeError) as ->; [| done].
    unfold should_skip_event, getitem. rewrite !has_lookup. upper_keys.
    by rewrite Hrule, Hend.
  - cbn [mbind result_bind]. unfold project_event.
    assert (generate_uid e domain = Raise AttributeError) as ->; [| done].
    unfold generate_uid, uid_source, getitem. rewrite has_lookup. upper_keys.
    by rewrite Huid.
Qed.

(** ** Further properties of the retrieval *)

(** X18. What follows the seven characters of the scheme is used as it
    is: as the calendar text for [data://], as the path to read for
    [file://].  An address that starts with "http" is requested whole and
    unchanged.  A failed read or request gives no data. *)
Theorem get_calendar_data_verbatim rest :
  get_calendar_data ("data://" +:+ rest) = Some rest
  ∧ get_calendar_data ("file://" +:+ rest)
    = match read_file rest with Ok text => Some text | Raise _ => None end
  ∧ get_calendar_data ("http" +:+ rest)
    = match urlopen ("http" +:+ rest) with Ok text => Some text | Raise _ => None end.
Proof.
  split; [reflexivity | split].
  - unfold get_calendar_data, download.
    change (PyStr.startswith "file://" ("file://" +:+ rest)) with true.
    change (PyStr.drop 7 ("file://" +:+ rest)) with rest.
    by destruct (read_file rest).
  - unfold get_calendar_data, download.
    change (PyStr.startswith "file://" ("http" +:+ rest)) with false.
    change (PyStr.startswith "http" ("http" +:+ rest)) with true.
    change (PyStr.startswith "webcal://" ("http" +:+ rest)) with false.
    cbn [orb]. by destruct (urlopen _).
Qed.

Lemma replace_absent old new s :
  PyStr.str_in old s = false → PyStr.replace old new s = s.
Proof.
  unfold PyStr.replace. induction s as [|c s IH]; [done |].
  change (PyStr.str_in old (String c s))
    with (PyStr.startswith old (String c s) || PyStr.str_in old s).
  rewrite orb_false_iff. intros [Hhead Htail].
  cbn [PyStr.replace_from]. rewrite Hhead. f_equal. by apply IH.
Qed.

(** X19. A [webcal://] address is requested over http with every
    occurrence of "webcal" replaced, not only the scheme: the rest of the
    address is rewritten too, and is left alone only where it does not
    contain "webcal". *)
Theorem get_calendar_data_webcal rest :
  get_calendar_data ("webcal://" +:+ rest)
  = match urlopen ("http://" +:+ PyStr.replace "webcal" "http" rest) with
    | Ok text => Some text
    | Raise _ => None
    end
  ∧ (PyStr.str_in "webcal" rest = false →
     get_calendar_data ("webcal://" +:+ rest)
     = match urlopen ("http://" +:+ rest) with
       | Ok text => Some text
       | Raise _ => None
       end).
Proof.
  assert (get_calendar_data ("webcal://" +:+ rest)
          = match urlopen ("http://" +:+ PyStr.replace "webcal" "http" rest) with
            | Ok text => Some text
            | Raise _ => None
            end) as Hget.
  { unfold get_calendar_data, download.
    change (PyStr.startswith "file://" ("webcal://" +:+ rest)) with false.
    change (PyStr.startswith "http" ("webcal://" +:+ rest)) with false.
    change (PyStr.startswith "webcal://" ("webcal://" +:+ rest)) with true.
    cbn [orb].
    change (PyStr.replace "webcal" "http" ("webcal://" +:+ rest))
      with ("http://" +:+ PyStr.replace "webcal" "http" rest).
    by destruct (urlopen _). }
  split; [done |]. intros Habsent. by rewrite Hget, replace_absent.
Qed.

(** ** The older script *)

(** X20. In the older script the uid handed to [obfuscate_uid] is looked
    up in the copy, and the copy list has no uid: the lookup gives None
    for every event, and without uid the identifier is the digest of the
    random draw. *)
Theorem legacy_uid_never_seen (component : Event) domain :
  get "uid" (copy_event component legacy_copied_keys) = None
  ∧ obfuscate_uid None domain = MD5.hexdigest uuid4 +:+ "@" +:+ domain.
Proof.
  split; [| done].
  unfold get. rewrite copy_event_lookup by compute_done.
  by rewrite decide_False by compute_done.
Qed.

End Camerge.

(** ** The sample calendar *)

(** Refute a response on explicit attendees and addresses: either the
    parameter is another one or the address does not occur. *)
Ltac no_response :=
  let a := fresh "a" in let ps := fresh "ps" in let email := fresh "email" in
  let Hatt := fresh "Hatt" in let Hps := fresh "Hps" in let Hs := fresh "Hs" in
  let Hemail := fresh "Hemail" in let Hsub := fresh "Hsub" in
  let l := fresh "l" in let Hin := fresh "Hin" in
  intros (a & ps & email & Hatt & Hps & Hs & Hemail & Hsub);
  destruct Hatt as [Hatt | (l & Hatt & Hin)];
  [ try discriminate Hatt; injection Hatt as <-
  | try discriminate Hatt; injection Hatt as <-;
    repeat (apply elem_of_cons in Hin as [-> | Hin]);
    try (by apply elem_of_nil in Hin) ];
  repeat (apply elem_of_cons in Hemail as [-> | Hemail]);
  try (by apply elem_of_nil in Hemail);
  first [ cbn in Hps; subst ps; vm_compute in Hs; discriminate Hs
        | apply str_in_spec in Hsub; vm_compute in Hsub; discriminate Hsub ].

(** C1 on the sample events: the owner accepted while an unknown guest
    declined; the known guest declined; the known invitee has not answered;
    nobody known is invited, and the stored status stays. *)
Lemma determine_status_priority_sample :
  determine_status Sample.prop_text Sample.meeting ["confirmed@example.com"]
  = py_str "CONFIRMED"
  ∧ determine_status Sample.prop_text Sample.meeting ["guest@example.org"]
    = py_str "CANCELLED"
  ∧ determine_status Sample.prop_text Sample.invited ["maybe@example.com"]
    = py_str "TENTATIVE"
  ∧ determine_status Sample.prop_text Sample.meeting ["nobody@example.net"]
    = One (vText "TENTATIVE" ∅).
Proof.
  split; [| split; [| split]].
  - pose proof (determine_status_priority Sample.prop_text Sample.meeting
                  ["confirmed@example.com"] (Many [Sample.owner; Sample.guest])
                  eq_refl ltac:(discriminate)) as H.
    cbv zeta in H. apply (proj1 H).
    exists Sample.owner, (Sample.responds "ACCEPTED"), "confirmed@example.com".
    split; [right; eexists; split; [reflexivity | left] |].
    split; [reflexivity |]. split; [reflexivity |]. split; [left |].
    exists "mailto:", "". reflexivity.
  - pose proof (determine_status_priority Sample.prop_text Sample.meeting
                  ["guest@example.org"] (Many [Sample.owner; Sample.guest])
                  eq_refl ltac:(discriminate)) as H.
    cbv zeta in H. apply (proj1 (proj2 H)).
    + no_response.
    + exists Sample.guest, (Sample.responds "DECLINED"), "guest@example.org".
      split; [right; eexists; split; [reflexivity | right; left] |].
      split; [reflexivity |]. split; [reflexivity |]. split; [left |].
      exists "mailto:", "". reflexivity.
  - pose proof (determine_status_priority Sample.prop_text Sample.invited
                  ["maybe@example.com"] (One Sample.invitee)
                  eq_refl ltac:(discriminate)) as H.
    cbv zeta in H. apply (proj1 (proj2 (proj2 H))).
    + no_response.
    + no_response.
    + right.
      exists Sample.invitee, (Sample.responds "NEEDS-ACTION"), "maybe@example.com".
      split; [by left |].
      split; [reflexivity |]. split; [reflexivity |]. split; [left |].
      exists "mailto:", "". reflexivity.
  - pose proof (determine_status_priority Sample.prop_text Sample.meeting
                  ["nobody@example.net"] (Many [Sample.owner; Sample.guest])
                  eq_refl ltac:(discriminate)) as H.
    cbv zeta in H. rewrite (proj2 (proj2 (proj2 H))); [reflexivity | no_response ..].
Defined.

(** C2 on the sample meeting. *)
Lemma generate_uid_stable_sample :
  generate_uid Sample.event_text Sample.meeting "camerge"
  = Ok "c6f1f7f34cacd26673956ca1ab1be734@camerge".
Proof.
  rewrite (proj1 (generate_uid_stable Sample.event_text Sample.meeting "camerge")
             (One (vText "meeting-1" ∅)) "meeting-1" eq_refl eq_refl).
  vm_compute. reflexivity.
Defined.

(** C3 on the sample meeting, which ended in March 2020, and on its weekly
    variant. *)
Lemma should_skip_event_spec_sample :
  should_skip_event Sample.meeting (Some (Date 2021 1 1)) = Ok true
  ∧ should_skip_event Sample.weekly (Some (Date 2021 1 1)) = Ok false.
Proof.
  split.
  - destruct (proj2 (proj2 (proj2
        (should_skip_event_spec Sample.meeting (Some (Date 2021 1 1)))))
        (Date 2021 1 1) (Sample.moment 2020 3 1 10)
        (DtDatetime (Datetime (Date 2020 3 1) 10 0 0)) ∅
        eq_refl eq_refl (or_introl eq_refl) eq_refl) as (skip & Hskip & Hiff).
    rewrite Hskip. f_equal. apply Hiff. left. cbn. lia.
  - apply (proj1 (proj2 (proj2
        (should_skip_event_spec Sample.weekly (Some (Date 2021 1 1)))))).
    eexists. reflexivity.
Defined.

(** The sample meeting ended before 2021: with that cutoff it is absent
    from the merged calendar, and its weekly variant would not be. *)
Example cutoff_drops_sample_meeting :
  merged_calendar Sample.prop_text Sample.event_text Sample.from_ical
    Sample.read_file Sample.urlopen
    [("data://BEGIN:VCALENDAR", false)] None "Merged Calendar" "busy" "camerge"
    (Some (Date 2021 1 1))
  = Ok {| prodid := "Merged Calendar"; version := "2.0";
          subcomponents := [CTimezone Sample.utc] |}.
Proof. vm_compute. reflexivity. Qed.

(** In the older script an event without uid gets an identifier that
    changes with the random draw. *)
Example obfuscate_uid_depends_on_draw :
  obfuscate_uid "6f1c" None "camerge" ≠ obfuscate_uid "a2d0" None "camerge".
Proof. vm_compute. discriminate. Qed.

(** C4 fails on the code: the second source does not parse, and the merge
    ends with the parser's error although the first source is sound. *)
Lemma merge_calendars_parse_failure_aborts :
  Sample.from_ical "garbage" = Raise ValueError
  ∧ get_calendar_data Sample.read_file Sample.urlopen "data://garbage" = Some "garbage"
  ∧ merge_calendars Sample.prop_text Sample.event_text Sample.from_ical
      Sample.calendar_text Sample.read_file Sample.urlopen
      [("data://BEGIN:VCALENDAR", false); ("data://garbage", false)]
      None "Merged Calendar" "busy" "camerge" None
    = Raise ValueError
  ∧ ¬ ∃ text,
      merge_calendars Sample.prop_text Sample.event_text Sample.from_ical
        Sample.calendar_text Sample.read_file Sample.urlopen
        [("data://BEGIN:VCALENDAR", false); ("data://garbage", false)]
        None "Merged Calendar" "busy" "camerge" None
      = Ok text.
Proof.
  assert (merge_calendars Sample.prop_text Sample.event_text Sample.from_ical
      Sample.calendar_text Sample.read_file Sample.urlopen
      [("data://BEGIN:VCALENDAR", false); ("data://garbage", false)]
      None "Merged Calendar" "busy" "camerge" None
    = Raise ValueError) as H by (vm_compute; reflexivity).
  split; [reflexivity |]. split; [reflexivity |]. split; [exact H |].
  rewrite H. intros [text Htext]. discriminate.
Qed.

(** The amended C4 on the same sources, and on sources that all fail. *)
Lemma merge_calendars_parse_error_sample :
  merge_calendars Sample.prop_text Sample.event_text Sample.from_ical
    Sample.calendar_text Sample.read_file Sample.urlopen
    [("data://BEGIN:VCALENDAR", false); ("data://garbage", false)]
    None "Merged Calendar" "busy" "camerge" None
  = Raise ValueError
  ∧ merge_calendars Sample.prop_text Sample.event_text Sample.from_ical
      Sample.calendar_text Sample.read_file Sample.urlopen
      [("file:///srv/none.ics", true); ("https://example.org/a.ics", false)]
      None "Merged Calendar" "busy" "camerge" None
    = Ok "BEGIN:VCALENDAR PRODID:Merged Calendar END:VCALENDAR".
Proof.
  split.
  - eapply (proj1 (merge_calendars_parse_error Sample.prop_text Sample.event_text
                     Sample.from_ical Sample.calendar_text Sample.read_file
                     Sample.urlopen _ None "Merged Calendar" "busy" "camerge" None)
              [("data://BEGIN:VCALENDAR", false)] "data://garbage" false []).
    + reflexivity.
    + vm_compute. reflexivity.
    + reflexivity.
    + reflexivity.
    + reflexivity.
  - rewrite (proj1 (proj2 (merge_calendars_parse_error Sample.prop_text
                     Sample.event_text Sample.from_ical Sample.calendar_text
                     Sample.read_file Sample.urlopen _ None "Merged Calendar"
                     "busy" "camerge" None))).
    + reflexivity.
    + repeat constructor.
Defined.

(** C5 fails on the code at the empty placeholder: the source is
    anonymized, the placeholder is a string, and the event of the merged
    calendar still carries the summary of the source event. *)
Theorem empty_placeholder_leaks_summary :
  ∃ calendar event,
    merged_calendar Sample.prop_text Sample.event_text Sample.from_ical
      Sample.read_file Sample.urlopen
      [("data://BEGIN:VCALENDAR", true)] None "Merged Calendar" "" "camerge" None
    = Ok calendar
    ∧ subcomponents calendar = [CTimezone Sample.utc; CEvent event]
    ∧ Sample.meeting !! "SUMMARY" = Some (One (vText "Dentist" ∅))
    ∧ event !! "SUMMARY" = Some (One (vText "Dentist" ∅))
    ∧ event !! "SUMMARY" ≠ Some (py_str "").
Proof.
  eexists. eexists. split; [vm_compute; reflexivity |].
  split; [reflexivity |]. split; [reflexivity |].
  split; [vm_compute; reflexivity | vm_compute; discriminate].
Qed.

(** C6 on the sample source. *)
Lemma timezones_pass_through_sample :
  ∃ calendar,
    merged_calendar Sample.prop_text Sample.event_text Sample.from_ical
      Sample.read_file Sample.urlopen
      [("data://BEGIN:VCALENDAR", true)] None "Merged Calendar" "busy" "camerge"
      (Some (Date 2021 1 1))
    = Ok calendar
    ∧ CTimezone Sample.utc ∈ subcomponents calendar.
Proof.
  eexists. split; [vm_compute; reflexivity |].
  eapply (proj2 (proj2 (timezones_pass_through Sample.prop_text Sample.event_text
                          Sample.from_ical Sample.read_file Sample.urlopen))
            [("data://BEGIN:VCALENDAR", true)] None "Merged Calendar" "busy"
            "camerge" (Some (Date 2021 1 1)) _ "data://BEGIN:VCALENDAR" true
            "BEGIN:VCALENDAR" [CTimezone Sample.utc; CEvent Sample.meeting]).
  - vm_compute. reflexivity.
  - left.
  - reflexivity.
  - reflexivity.
  - reflexivity.
  - left.
Defined.

(** C7 on the sample source: the meeting has attendees, its projection
    has none. *)
Lemma no_attendee_in_output_sample :
  ∃ calendar event,
    merged_calendar Sample.prop_text Sample.event_text Sample.from_ical
      Sample.read_file Sample.urlopen
      [("data://BEGIN:VCALENDAR", true)] None "Merged Calendar" "busy" "camerge" None
    = Ok calendar
    ∧ CEvent event ∈ subcomponents calendar
    ∧ is_Some (Sample.meeting !! "ATTENDEE")
    ∧ event !! "ATTENDEE" = None.
Proof.
  eexists. eexists.
  split; [vm_compute; reflexivity |].
  split; [right; left |].
  split; [eexists; reflexivity |].
  eapply (no_attendee_in_output Sample.prop_text Sample.event_text Sample.from_ical
            Sample.read_file Sample.urlopen
            [("data://BEGIN:VCALENDAR", true)] None "Merged Calendar" "busy"
            "camerge" None).
  - vm_compute. reflexivity.
  - right. left.
Defined.

(** C8 on three sources, the second of which cannot be read: the merge
    equals the merge of the two others, and the calendar holds the
    timezone and the event of the first and of the third. *)
Lemma fetch_failure_skips_source_sample :
  get_calendar_data Sample.read_file Sample.urlopen "file:///srv/none.ics" = None
  ∧ merge_calendars Sample.prop_text Sample.event_text Sample.from_ical
      Sample.calendar_text Sample.read_file Sample.urlopen
      [("data://BEGIN:VCALENDAR", true); ("file:///srv/none.ics", true);
       ("file:///srv/home.ics", false)]
      None "Merged Calendar" "busy" "camerge" None
    = merge_calendars Sample.prop_text Sample.event_text Sample.from_ical
        Sample.calendar_text Sample.read_file Sample.urlopen
        [("data://BEGIN:VCALENDAR", true); ("file:///srv/home.ics", false)]
        None "Merged Calendar" "busy" "camerge" None
  ∧ ∃ first last,
      first !! "SUMMARY" = Some (py_str "busy")
      ∧ last !! "SUMMARY" = Some (One (vText "Dentist" ∅))
      ∧ merged_calendar Sample.prop_text Sample.event_text Sample.from_ical
          Sample.read_file Sample.urlopen
          [("data://BEGIN:VCALENDAR", true); ("file:///srv/none.ics", true);
           ("file:///srv/home.ics", false)]
          None "Merged Calendar" "busy" "camerge" None
        = Ok {| prodid := "Merged Calendar"; version := "2.0";
                subcomponents := [CTimezone Sample.utc; CEvent first;
                                  CTimezone Sample.utc; CEvent last] |}.
Proof.
  pose proof (fetch_failure_skips_source Sample.prop_text Sample.event_text
                Sample.from_ical Sample.calendar_text Sample.read_file
                Sample.urlopen) as (_ & Hfile & _ & _ & Hskip & Hothers & _).
  assert (get_calendar_data Sample.read_file Sample.urlopen "file:///srv/none.ics"
          = None) as Hnone.
  { apply (Hfile "file:///srv/none.ics" OSError); reflexivity. }
  split; [exact Hnone |]. split.
  - exact (Hskip [("data://BEGIN:VCALENDAR", true)] "file:///srv/none.ics" true
             [("file:///srv/home.ics", false)] None "Merged Calendar" "busy"
             "camerge" None Hnone).
  - eexists. eexists. split; [| split];
      [| | refine (proj1 (Hothers [("data://BEGIN:VCALENDAR", true)]
                            "file:///srv/none.ics" true
                            [("file:///srv/home.ics", false)] None "Merged Calendar"
                            "busy" "camerge" None [[CTimezone Sample.utc; CEvent _]]
                            [[CTimezone Sample.utc; CEvent _]] Hnone _ _))].
    3: { constructor; [vm_compute; reflexivity | constructor]. }
    3: { constructor; [vm_compute; reflexivity | constructor]. }
    + vm_compute. reflexivity.
    + vm_compute. reflexivity.
Defined.

(** C9 on the source [data://]. *)
Lemma empty_text_skips_source_sample :
  merge_calendars Sample.prop_text Sample.event_text Sample.from_ical
    Sample.calendar_text Sample.read_file Sample.urlopen
    [("data://", true); ("data://BEGIN:VCALENDAR", false)]
    None "Merged Calendar" "busy" "camerge" None
  = merge_calendars Sample.prop_text Sample.event_text Sample.from_ical
      Sample.calendar_text Sample.read_file Sample.urlopen
      [("data://BEGIN:VCALENDAR", false)]
      None "Merged Calendar" "busy" "camerge" None.
Proof.
  pose proof (empty_text_skips_source Sample.prop_text Sample.event_text
                Sample.from_ical Sample.calendar_text Sample.read_file
                Sample.urlopen) as (Hdata & _ & Hskip & _).
  exact (Hskip [] "data://" true [("data://BEGIN:VCALENDAR", false)]
           None "Merged Calendar" "busy" "camerge" None Hdata).
Defined.

(** C10 on the sample meeting. *)
Lemma empty_placeholder_keeps_summary_sample :
  ∃ event,
    project_event Sample.prop_text Sample.event_text Sample.meeting "camerge" []
      (Some "") None
    = Ok event
    ∧ event !! "SUMMARY" = Some (One (vText "Dentist" ∅)).
Proof.
  eexists. split; [vm_compute; reflexivity |].
  erewrite (proj1 (proj2 (empty_placeholder_keeps_summary Sample.prop_text
                            Sample.event_text Sample.from_ical Sample.calendar_text
                            Sample.read_file Sample.urlopen))
              Sample.meeting "camerge" []).
  - reflexivity.
  - vm_compute. reflexivity.
Defined.

(** ** The further properties on the sample data *)



Lemma should_skip_event_monotone_sample :
  should_skip_event Sample.meeting (Some (Date 2022 6 1)) = Ok true.
Proof.
  apply (should_skip_event_monotone Sample.meeting (Date 2021 1 1) (Date 2022 6 1)).
  - vm_compute. reflexivity.
  - right. left. cbn. lia.
Defined.

Lemma should_skip_event_repeated_line_sample :
  should_skip_event Sample.doubled (Some (Date 2021 1 1)) = Raise AttributeError
  ∧ should_skip_event Sample.doubled None = Ok false.
Proof.
  apply (should_skip_event_repeated_line Sample.doubled (Date 2021 1 1)
           [vDDDTypes (DtDate (Date 2020 3 1)) ∅;
            vDDDTypes (DtDate (Date 2020 3 2)) ∅]).
  - reflexivity.
  - left. reflexivity.
Defined.

Lemma determine_status_nobody_known_sample :
  determine_status Sample.prop_text Sample.note ["confirmed@example.com"]
  = py_str "CONFIRMED".
Proof.
  rewrite (determine_status_nobody_known Sample.prop_text Sample.note
             ["confirmed@example.com"]).
  - reflexivity.
  - intros att a Hatt. vm_compute in Hatt. discriminate.
Defined.

Lemma determine_status_order_sample :
  determine_status Sample.prop_text
    (<["ATTENDEE" := Many [Sample.guest; Sample.owner]]> Sample.meeting)
    ["confirmed@example.com"]
  = determine_status Sample.prop_text Sample.meeting ["confirmed@example.com"].
Proof.
  apply (proj1 (determine_status_order Sample.prop_text Sample.meeting
                  ["confirmed@example.com"])
           (Many [Sample.owner; Sample.guest])).
  - reflexivity.
  - apply perm_swap.
Defined.

Lemma determine_status_empty_address_sample :
  is_known Sample.prop_text [""] Sample.owner = true
  ∧ determine_status Sample.prop_text Sample.meeting [""] = py_str "CONFIRMED".
Proof.
  apply (determine_status_empty_address Sample.prop_text Sample.meeting [""]
           (Many [Sample.owner; Sample.guest]) Sample.owner).
  - left.
  - reflexivity.
  - left.
  - reflexivity.
Defined.

Lemma generate_uid_scoped_sample :
  PyStr.drop 32 "c6f1f7f34cacd26673956ca1ab1be734@camerge" = "@camerge".
Proof.
  apply (generate_uid_scoped Sample.event_text Sample.meeting "camerge"
           "c6f1f7f34cacd26673956ca1ab1be734@camerge").
  vm_compute. reflexivity.
Defined.

Lemma generate_uid_repeated_line_sample :
  generate_uid Sample.event_text Sample.two_uids "camerge" = Raise AttributeError
  ∧ project_event Sample.prop_text Sample.event_text Sample.two_uids "camerge"
      ["confirmed@example.com"] (Some "busy") None
    = Raise AttributeError.
Proof.
  destruct (generate_uid_repeated_line Sample.prop_text Sample.event_text
              Sample.two_uids "camerge"
              [vText "meeting-1" ∅; vText "meeting-2" ∅] eq_refl)
    as [Hgen Hproj].
  split; [exact Hgen |]. apply Hproj. compute_done.
Defined.

Lemma process_calendar_data_events_sample :
  ∃ out,
    process_calendar_data Sample.prop_text Sample.event_text Sample.from_ical_more
      "TODO" "camerge" [] (Some (Date 2021 1 1)) None None = Ok out
    ∧ Forall2 (λ e event,
                 project_event Sample.prop_text Sample.event_text e "camerge" []
                   None None = Ok event)
              [Sample.note] (events_of out).
Proof.
  eexists. split; [vm_compute; reflexivity |].
  refine (proj1 (process_calendar_data_events Sample.prop_text Sample.event_text
                   Sample.from_ical_more "TODO" "camerge" [] (Some (Date 2021 1 1))
                   None None
                   [COther "VTODO"; CEvent Sample.note; CTimezone Sample.utc] _
                   _ _)).
  - reflexivity.
  - vm_compute. reflexivity.
Defined.

Lemma merged_events_identified_sample :
  ∃ calendar event,
    merged_calendar Sample.prop_text Sample.event_text Sample.from_ical
      Sample.read_file Sample.urlopen
      [("data://BEGIN:VCALENDAR", true)] None "Merged Calendar" "busy" "camerge" None
    = Ok calendar
    ∧ CEvent event ∈ subcomponents calendar
    ∧ event !! "UID" = Some (py_str "c6f1f7f34cacd26673956ca1ab1be734@camerge")
    ∧ is_Some (event !! "STATUS").
Proof.
  eexists. eexists.
  split; [vm_compute; reflexivity |].
  split; [right; left |].
  split; [vm_compute; reflexivity |].
  eapply (merged_events_identified Sample.prop_text Sample.event_text Sample.from_ical
            Sample.read_file Sample.urlopen
            [("data://BEGIN:VCALENDAR", true)] None "Merged Calendar" "busy"
            "camerge" None).
  - vm_compute. reflexivity.
  - right. left.
Defined.

Lemma merged_summaries_sample :
  Sample.note !! "SUMMARY" = None
  ∧ (∃ calendar event,
      merged_calendar Sample.prop_text Sample.event_text Sample.from_ical_more
        Sample.read_file Sample.urlopen
        [("data://TODO", true)] None "Merged Calendar" "busy" "camerge" None
      = Ok calendar
      ∧ CEvent event ∈ subcomponents calendar
      ∧ event !! "SUMMARY" = Some (py_str "busy"))
  ∧ (∃ calendar event (source : string * bool) text loaded e,
      merged_calendar Sample.prop_text Sample.event_text Sample.from_ical_more
        Sample.read_file Sample.urlopen
        [("data://TODO", false)] None "Merged Calendar" "busy" "camerge" None
      = Ok calendar
      ∧ CEvent event ∈ subcomponents calendar
      ∧ source ∈ [("data://TODO", false)]
      ∧ get_calendar_data Sample.read_file Sample.urlopen source.1 = Some text
      ∧ Sample.from_ical_more text = Ok loaded
      ∧ CEvent e ∈ loaded
      ∧ project_event Sample.prop_text Sample.event_text e "camerge" [] None None
        = Ok event
      ∧ event !! "SUMMARY" = e !! "SUMMARY").
Proof.
  split; [reflexivity |]. split.
  - eexists. eexists.
    split; [vm_compute; reflexivity |].
    split; [left |].
    eapply (merged_summaries Sample.prop_text Sample.event_text
              Sample.from_ical_more Sample.read_file Sample.urlopen
              [("data://TODO", true)] None "Merged Calendar" "busy"
              "camerge" None).
    + vm_compute. reflexivity.
    + left.
    + reflexivity.
    + by repeat constructor.
  - assert (∃ calendar event,
      merged_calendar Sample.prop_text Sample.event_text Sample.from_ical_more
        Sample.read_file Sample.urlopen
        [("data://TODO", false)] None "Merged Calendar" "busy" "camerge" None
      = Ok calendar
      ∧ CEvent event ∈ subcomponents calendar) as (calendar & event & Hm & Hin).
    { eexists. eexists. split; [vm_compute; reflexivity | left]. }
    destruct (proj2 (merged_summaries Sample.prop_text Sample.event_text
                       Sample.from_ical_more Sample.read_file Sample.urlopen
                       [("data://TODO", false)] None "Merged Calendar" "busy"
                       "camerge" None calendar event Hm Hin))
      as (source & text & loaded & e & H); [by repeat constructor |].
    exists calendar, event, source, text, loaded, e. by repeat (split; [done |]).
Defined.

Lemma placeholder_unused_sample :
  merge_calendars Sample.prop_text Sample.event_text Sample.from_ical
    Sample.calendar_text Sample.read_file Sample.urlopen
    [("data://BEGIN:VCALENDAR", false)] None "Merged Calendar" "busy" "camerge" None
  = merge_calendars Sample.prop_text Sample.event_text Sample.from_ical
      Sample.calendar_text Sample.read_file Sample.urlopen
      [("data://BEGIN:VCALENDAR", false)] None "Merged Calendar" "away" "camerge" None.
Proof.
  apply placeholder_unused. by repeat constructor.
Defined.

Lemma merged_calendar_shape_sample :
  Sample.from_ical_more "TODO"
  = Ok [COther "VTODO"; CEvent Sample.note; CTimezone Sample.utc]
  ∧ ∃ calendar,
      merged_calendar Sample.prop_text Sample.event_text Sample.from_ical_more
        Sample.read_file Sample.urlopen
        [("data://TODO", false)] None "Availability" "busy" "camerge" None
      = Ok calendar
      ∧ prodid calendar = "Availability"
      ∧ version calendar = "2.0"
      ∧ Forall (λ c, is_other c = false) (subcomponents calendar).
Proof.
  split; [reflexivity |].
  eexists. split; [vm_compute; reflexivity |].
  apply (merged_calendar_shape Sample.prop_text Sample.event_text
           Sample.from_ical_more Sample.read_file Sample.urlopen
           [("data://TODO", false)] None "Availability" "busy" "camerge" None).
  vm_compute. reflexivity.
Defined.

Lemma merged_calendar_app_sample :
  ∃ first second,
    merged_calendar Sample.prop_text Sample.event_text Sample.from_ical_more
      Sample.read_file Sample.urlopen
      [("data://TODO", false)] None "Merged Calendar" "busy" "camerge" None
    = Ok first
    ∧ merged_calendar Sample.prop_text Sample.event_text Sample.from_ical_more
        Sample.read_file Sample.urlopen
        [("data://BEGIN:VCALENDAR", true)] None "Merged Calendar" "busy" "camerge" None
      = Ok second
    ∧ merged_calendar Sample.prop_text Sample.event_text Sample.from_ical_more
        Sample.read_file Sample.urlopen
        [("data://TODO", false); ("data://BEGIN:VCALENDAR", true)]
        None "Merged Calendar" "busy" "camerge" None
      = Ok {| prodid := "Merged Calendar"; version := "2.0";
              subcomponents := subcomponents first ++ subcomponents second |}.
Proof.
  eexists. eexists.
  split; [vm_compute; reflexivity |].
  split; [vm_compute; reflexivity |].
  apply (proj2 (merged_calendar_app Sample.prop_text Sample.event_text
                  Sample.from_ical_more Sample.read_file Sample.urlopen
                  [("data://TODO", false)] [("data://BEGIN:VCALENDAR", true)]
                  None "Merged Calendar" "busy" "camerge" None _)).
  eexists. eexists.
  split; [vm_compute; reflexivity |].
  split; [vm_compute; reflexivity |].
  reflexivity.
Defined.

Lemma sample_parser_typed : parser_typed Sample.from_ical_more.
Proof.
  intros text loaded. unfold Sample.from_ical_more, Sample.from_ical.
  repeat match goal with
         | |- context [if ?b then _ else _] => destruct b
         end;
    intros H; try discriminate H; injection H as <-;
    repeat constructor; compute_done.
Defined.

Lemma merge_calendars_event_error_sample :
  merge_calendars Sample.prop_text Sample.event_text Sample.from_ical_more
    Sample.calendar_text Sample.read_file Sample.urlopen
    [("data://BEGIN:VCALENDAR", false); ("data://DOUBLED", false);
     ("data://TODO", true)]
    None "Merged Calendar" "busy" "camerge" (Some (Date 2021 1 1))
  = Raise AttributeError
  ∧ merge_calendars Sample.prop_text Sample.event_text Sample.from_ical_more
      Sample.calendar_text Sample.read_file Sample.urlopen
      [("data://TWO-UIDS", false)]
      None "Merged Calendar" "busy" "camerge" None
    = Raise AttributeError.
Proof.
  split.
  - eapply (merge_calendars_event_error Sample.prop_text Sample.event_text
              Sample.from_ical_more Sample.calendar_text Sample.read_file
              Sample.urlopen
              [("data://BEGIN:VCALENDAR", false)] "data://DOUBLED" false
              [("data://TODO", true)] None "Merged Calendar" "busy" "camerge"
              (Some (Date 2021 1 1)) _ "DOUBLED" [CTimezone Sample.utc]
              Sample.doubled []).
    + exact sample_parser_typed.
    + vm_compute. reflexivity.
    + reflexivity.
    + reflexivity.
    + reflexivity.
    + reflexivity.
    + left. eexists. split; [by eexists |]. split; reflexivity.
  - eapply (merge_calendars_event_error Sample.prop_text Sample.event_text
              Sample.from_ical_more Sample.calendar_text Sample.read_file
              Sample.urlopen
              [] "data://TWO-UIDS" false [] None "Merged Calendar" "busy" "camerge"
              None _ "TWO-UIDS" [CEvent Sample.note] Sample.two_uids []).
    + exact sample_parser_typed.
    + reflexivity.
    + reflexivity.
    + reflexivity.
    + reflexivity.
    + vm_compute. reflexivity.
    + right. eexists. split; reflexivity.
Defined.

Lemma get_calendar_data_webcal_sample :
  get_calendar_data Sample.read_file Sample.urlopen_one
    "webcal://example.org/webcal.ics" = Some "TODO"
  ∧ get_calendar_data Sample.read_file Sample.urlopen_one
      "webcal://example.org/a.ics" = None.
Proof.
  split.
  - etransitivity;
      [exact (proj1 (get_calendar_data_webcal Sample.read_file Sample.urlopen_one
                       "example.org/webcal.ics")) |].
    reflexivity.
  - etransitivity;
      [exact (proj2 (get_calendar_data_webcal Sample.read_file Sample.urlopen_one
                       "example.org/a.ics") eq_refl) |].
    reflexivity.
Defined.
